(** * The provisioning configuration compiler of Cloud-Web-Infrastructure

    A shallow embedding of the Go packages [host_system], [network] and
    [parsers], and the properties of the provisioning pipeline they
    implement.

    Go values are modelled as follows.
    - A Go function either returns or panics: [outcome].  A result pair
      [(T, error)] is a pair of options, [None] standing for [nil].
    - [string] is a byte string; integers are [Z] within the range of
      their Go type; [time.Duration] is [Z] nanoseconds.
    - Go maps are [gmap]s; a missing key reads as the zero value.
    - Calls that leave the process (the vSphere control plane, the
      customer data store) are answered by an explicit environment
      record, so that every answer the library can give is covered. *)

From Stdlib Require Import ZArith Ascii String List Bool.
From stdpp Require Import base strings pretty gmap list.

Local Open Scope string_scope.

(** ** The Go runtime *)

(** An [error] value; [errors.New] is its only constructor here. *)
Inductive error := errors_New (msg : string).

Definition Error (e : error) : string := let 'errors_New msg := e in msg.

#[global] Instance error_eq_dec : EqDecision error.
Proof. solve_decision. Defined.

(** A call returns a value or unwinds with a run-time panic. *)
Inductive outcome (A : Type) : Type :=
| Returned (a : A)
| Panicked (reason : string).
Arguments Returned {A} a.
Arguments Panicked {A} reason.

#[global] Instance outcome_ret : MRet outcome := fun A a => Returned a.
#[global] Instance outcome_bind : MBind outcome := fun A B k m =>
  match m with
  | Returned a => k a
  | Panicked r => Panicked r
  end.

Definition panicked {A} (m : outcome A) : bool :=
  match m with Panicked _ => true | Returned _ => false end.

(** The [error] half of a returned [(T, error)] pair, [None] when the call
    returned [nil] or did not return at all. *)
Definition returned_error {A} (m : outcome (option A * option error)) : option error :=
  match m with
  | Returned (_, e) => e
  | Panicked _ => None
  end.

(** The value half of a call that returned with a [nil] error. *)
Definition returned_value {A} (m : outcome (option A * option error)) : option A :=
  match m with
  | Returned (v, None) => v
  | _ => None
  end.

(** [l[i]] on a slice: a run-time panic outside the bounds. *)
Definition index {A} (l : list A) (i : nat) : outcome A :=
  match l !! i with
  | Some x => Returned x
  | None =>
    Panicked ("runtime error: index out of range [" +:+ pretty i +:+
              "] with length " +:+ pretty (length l))
  end.

(** *** package strings *)

Definition is_upper (c : ascii) : bool :=
  Nat.leb 65 (nat_of_ascii c) && Nat.leb (nat_of_ascii c) 90.
Definition is_lower (c : ascii) : bool :=
  Nat.leb 97 (nat_of_ascii c) && Nat.leb (nat_of_ascii c) 122.

Definition lower_byte (c : ascii) : ascii :=
  if is_upper c then ascii_of_nat (nat_of_ascii c + 32) else c.
Definition upper_byte (c : ascii) : ascii :=
  if is_lower c then ascii_of_nat (nat_of_ascii c - 32) else c.

Fixpoint map_bytes (f : ascii -> ascii) (s : string) : string :=
  match s with
  | EmptyString => EmptyString
  | String c rest => String (f c) (map_bytes f rest)
  end.

Definition is_ascii (s : string) : bool :=
  forallb (fun c => Nat.ltb (nat_of_ascii c) 128) (list_ascii_of_string s).

(** The case tables of package unicode are the library's and are taken as
    given: [Map_ToLower s] is [strings.Map(unicode.ToLower, s)], which
    decodes [s] rune by rune, maps every rune through the tables and puts
    U+FFFD for a byte that is not UTF-8. *)
Record unicode := { Map_ToLower : string -> string }.

(** The lower case of a string of ASCII bytes. *)
Definition ascii_ToLower : string -> string := map_bytes lower_byte.

(** [strings.ToLower]: a string of ASCII bytes is mapped byte by byte, any
    other string through the Unicode tables. *)
Definition strings_ToLower (U : unicode) (s : string) : string :=
  if is_ascii s then ascii_ToLower s else Map_ToLower U s.
(** [strings.ToTitle] on a string of ASCII bytes, such as the name of a
    struct field: every letter to its title case, which for the Latin
    letters is the upper case (it is not "first letter only"). *)
Definition strings_ToTitle : string -> string := map_bytes upper_byte.

(** *** package slices *)

Definition slices_Contains (s : list string) (v : string) : bool :=
  existsb (String.eqb v) s.

(** *** packages time and context *)

Definition Duration := Z.
Definition time_Second : Duration := 1000000000%Z.
Definition time_Minute : Duration := (60 * time_Second)%Z.

(** A context carries the budget after which calls made under it give up;
    [context.Background()] has none. *)
Record Context := { Deadline : option Duration }.
Definition context_Background : Context := {| Deadline := None |}.
Definition context_WithTimeout (parent : Context) (d : Duration) : Context :=
  {| Deadline := Some (match Deadline parent with
                       | Some p => Z.min p d
                       | None => d
                       end) |}.

(** *** govmomi: vim25/types *)

Module types.

Inductive BaseCustomizationOptions :=
| CustomizationLinuxOptions
| CustomizationWinOptions.

#[global] Instance BaseCustomizationOptions_eq_dec : EqDecision BaseCustomizationOptions.
Proof. solve_decision. Defined.

Inductive BaseCustomizationIpGenerator :=
| CustomizationCustomIpGenerator
| CustomizationDhcpIpGenerator
| CustomizationFixedIp (IpAddress : string).

Inductive BaseCustomizationIpV6Generator :=
| CustomizationAutoIpV6Generator.

Record CustomizationIPSettings := {
  Ip : BaseCustomizationIpGenerator;
  SubnetMask : string;
  Gateway : list string;
  IpV6Spec : list BaseCustomizationIpV6Generator;
}.

Record CustomizationAdapterMapping := { Adapter : CustomizationIPSettings }.

Inductive BaseCustomizationIdentitySettings :=
| CustomizationIdentitySettings
| CustomizationLinuxPrep (HostName : string).

Record CustomizationSpec := {
  Options : option BaseCustomizationOptions;
  NicSettingMap : list CustomizationAdapterMapping;
  Identity : BaseCustomizationIdentitySettings;
}.

Record ManagedObjectReference := { Type_ : string; Value : string }.

#[global] Instance ManagedObjectReference_eq_dec : EqDecision ManagedObjectReference.
Proof. solve_decision. Defined.

(** The disk device configuration, as far as this program fills it. *)
Record VirtualDeviceConfigSpec := {
  CapacityInKB : Z;
  Datastore : ManagedObjectReference;
}.

End types.

(** ** package host_system *)

Module host_system.

Record HostSystemCredentials := {
  Bit : Z;
  SystemName : string;
}.

Definition NewHostSystemCredentials (U : unicode) (SystemName : string) (Bit : Z)
    : HostSystemCredentials :=
  {| SystemName := strings_ToLower U SystemName; Bit := Bit |}.

Definition GetHostSystemLocalPath (SystemName : string) : string * option error :=
  if String.eqb SystemName "ubuntu" then ("", None)
  else if String.eqb SystemName "windows" then ("", None)
  else ("", Some (errors_New "Invalid System Name")).

(** The body of [GetDefaultCustomizationOptions], with its two local slices
    as arguments: the control flow does not depend on what they hold. *)
Definition CustomizationOptionsFor (U : unicode)
    (LinuxDistributions WindowsDistrubitions : list string) (SystemName : string)
    : option types.BaseCustomizationOptions * option error :=
  if slices_Contains LinuxDistributions (strings_ToLower U SystemName) then
    (Some types.CustomizationLinuxOptions, None)
  else if slices_Contains WindowsDistrubitions (strings_ToLower U SystemName) then
    (Some types.CustomizationWinOptions, None)
  else (None, Some (errors_New "Invalid Host System Name")).

(** The two slices as the source initialises them. *)
Definition LinuxDistributions : list string := [].
Definition WindowsDistrubitions : list string := [].

Definition GetDefaultCustomizationOptions (U : unicode) (SystemName : string)
    : option types.BaseCustomizationOptions * option error :=
  CustomizationOptionsFor U LinuxDistributions WindowsDistrubitions SystemName.

(** The budget [SetupHostSystem] gives its control-plane call. *)
Definition SetupHostSystem_Timeout : Duration := (time_Minute * 1)%Z.

(** [VirtualMachine.Device] is answered by the control plane: [Device ctx]
    is the error it reports, if any.  The boot options, the local file
    system volume and the reconnect spec the function also builds do not
    reach its result. *)
Definition SetupHostSystem (U : unicode) (Device : Context -> option error)
    (HostSystemCredentials : HostSystemCredentials)
    : option types.CustomizationSpec * option error :=
  let TimeoutContext := context_WithTimeout context_Background SetupHostSystem_Timeout in
  let '(DefaultCustomizationOptions, OptionsError) :=
    GetDefaultCustomizationOptions U (SystemName HostSystemCredentials) in
  match OptionsError with
  | Some _ => (None, Some (errors_New "Invalid Operational System Name"))
  | None =>
    let VirtualMachineConfigSpecification :=
      {| types.Options := DefaultCustomizationOptions;
         types.NicSettingMap := [];
         types.Identity := types.CustomizationIdentitySettings |} in
    match Device TimeoutContext with
    | Some _ => (None, Some (errors_New "Failed to Setup HostSystem"))
    | None => (Some VirtualMachineConfigSpecification, None)
    end
  end.

End host_system.

(** *** package reflect

    The part of the reflection interface the program calls.  A [Type_] is
    a run-time type, a [Value] a run-time value together with its type and
    its addressability. *)

Module reflect.

Inductive Kind := Interface | Ptr | String | Struct.

#[warnings="-register-all"]
Inductive Type_ :=
| string_t
| interface_t (name : string)
| struct_t (name : string) (fields : list (string * Type_))
| ptr_t (elem : Type_).

Definition Type_Kind (t : Type_) : Kind :=
  match t with
  | string_t => String
  | interface_t _ => Interface
  | struct_t _ _ => Struct
  | ptr_t _ => Ptr
  end.

Definition Kind_String (k : Kind) : string :=
  match k with
  | Interface => "interface"
  | Ptr => "ptr"
  | String => "string"
  | Struct => "struct"
  end.

Fixpoint Type_String (t : Type_) : string :=
  match t with
  | string_t => "string"
  | interface_t name => name
  | struct_t name _ => name
  | ptr_t elem => "*" +:+ Type_String elem
  end.

Record StructField := { Name : string; Type_of : Type_ }.

(** [Type.NumField]: "It panics if the type's Kind is not Struct." *)
Definition Type_NumField (t : Type_) : outcome nat :=
  match t with
  | struct_t _ fields => Returned (length fields)
  | _ => Panicked ("reflect: NumField of non-struct type " +:+ Type_String t)
  end.

(** [Type.Field]: "It panics if the type's Kind is not Struct", or if the
    index is out of range. *)
Definition Type_Field (t : Type_) (i : nat) : outcome StructField :=
  match t with
  | struct_t _ fields =>
    match fields !! i with
    | Some (name, ft) => Returned {| Name := name; Type_of := ft |}
    | None => Panicked "reflect: Field index out of bounds"
    end
  | _ => Panicked ("reflect: Field of non-struct type " +:+ Type_String t)
  end.

#[warnings="-register-all"]
Inductive data :=
| string_v (s : string)
| interface_v
| struct_v (fields : list data)
| ptr_v (elem : data).

(** [typ = None] is the zero Value. *)
Record Value := { typ : option Type_; val : data; CanAddr : bool }.

Definition zero_Value : Value := {| typ := None; val := interface_v; CanAddr := false |}.

(** [reflect.ValueOf]: never addressable. *)
Definition ValueOf (t : Type_) (d : data) : Value :=
  {| typ := Some t; val := d; CanAddr := false |}.

Definition Value_Type (v : Value) : outcome Type_ :=
  match typ v with
  | Some t => Returned t
  | None => Panicked "reflect: call of reflect.Value.Type on zero Value"
  end.

Definition not_a_struct (method : string) (v : Value) : string :=
  "reflect: call of reflect.Value." +:+ method +:+ " on " +:+
  match typ v with
  | Some t => Kind_String (Type_Kind t) +:+ " Value"
  | None => "zero Value"
  end.

(** [Value.Field]: "It panics if v's Kind is not Struct." *)
Definition Value_Field (v : Value) (i : nat) : outcome Value :=
  match typ v, val v with
  | Some (struct_t _ fields), struct_v vals =>
    match fields !! i, vals !! i with
    | Some (_, ft), Some d => Returned {| typ := Some ft; val := d; CanAddr := CanAddr v |}
    | _, _ => Panicked "reflect: Field index out of range"
    end
  | _, _ => Panicked (not_a_struct "Field" v)
  end.

Fixpoint field_index (name : string) (fields : list (string * Type_)) : option nat :=
  match fields with
  | [] => None
  | (n, _) :: rest => if String.eqb n name then Some 0 else S <$> field_index name rest
  end.

(** [Value.FieldByName]: "It returns the zero Value if no field was found.
    It panics if v's Kind is not struct." *)
Definition Value_FieldByName (v : Value) (name : string) : outcome Value :=
  match typ v with
  | Some (struct_t _ fields) =>
    match field_index name fields with
    | Some i => Value_Field v i
    | None => Returned zero_Value
    end
  | _ => Panicked (not_a_struct "FieldByName" v)
  end.

(** [Value.String]: the underlying string of a string, and for any other
    kind a string of the form ["<T value>"]; it never panics. *)
Definition Value_String (v : Value) : string :=
  match typ v, val v with
  | Some string_t, string_v s => s
  | Some t, _ => "<" +:+ Type_String t +:+ " Value>"
  | None, _ => "<invalid Value>"
  end.

Definition Type_eqb (a b : Type_) : bool := String.eqb (Type_String a) (Type_String b).

(** [Value.Set]: "It panics if CanSet returns false.  As in Go, x's value
    must be assignable to v's type."  The result is the value now stored. *)
Definition Value_Set (v x : Value) : outcome data :=
  match typ v, typ x with
  | None, _ => Panicked "reflect: call of reflect.Value.Set on zero Value"
  | Some tv, Some tx =>
    if negb (CanAddr v) then Panicked "reflect: reflect.Value.Set using unaddressable value"
    else if Type_eqb tv tx || (match tv with interface_t _ => true | _ => false end)
    then Returned (val x)
    else Panicked ("reflect.Set: value of type " +:+ Type_String tx +:+
                   " is not assignable to type " +:+ Type_String tv)
  | Some _, None => Panicked "reflect: call of reflect.Value.Set with zero Value"
  end.

End reflect.

(** ** package network *)

Module network.

Record VirtualMachineIPAddress := {
  Options : option types.BaseCustomizationOptions;
  IPv4 : string;
  Netmask : string;
  Gateway : string;
  Hostname : string;
}.

(** The struct type and its values, as [reflect] sees them. *)
Definition VirtualMachineIPAddress_t : reflect.Type_ :=
  reflect.struct_t "network.VirtualMachineIPAddress"
    [("Options", reflect.interface_t "types.BaseCustomizationOptions");
     ("IPv4", reflect.string_t); ("Netmask", reflect.string_t);
     ("Gateway", reflect.string_t); ("Hostname", reflect.string_t)].

Definition data_of (s : VirtualMachineIPAddress) : reflect.data :=
  reflect.struct_v
    [reflect.interface_v; reflect.string_v (IPv4 s); reflect.string_v (Netmask s);
     reflect.string_v (Gateway s); reflect.string_v (Hostname s)].

(** The receiver [this] has type [*VirtualMachineIPAddress]: what
    [reflect.TypeOf(this)] and [reflect.ValueOf(this)] describe is the
    pointer, not the struct behind it. *)
Definition TypeOf_this : reflect.Type_ := reflect.ptr_t VirtualMachineIPAddress_t.
Definition ValueOf_this (this : VirtualMachineIPAddress) : reflect.Value :=
  reflect.ValueOf TypeOf_this (reflect.ptr_v (data_of this)).

(** [reflect.ValueOf(GeneratedValue)]: a pointer to the generator struct. *)
Definition ValueOf_generator (g : types.BaseCustomizationIpGenerator) : reflect.Value :=
  reflect.ValueOf
    (reflect.ptr_t (reflect.struct_t
       match g with
       | types.CustomizationCustomIpGenerator => "types.CustomizationCustomIpGenerator"
       | types.CustomizationDhcpIpGenerator => "types.CustomizationDhcpIpGenerator"
       | types.CustomizationFixedIp _ => "types.CustomizationFixedIp"
       end []))
    (reflect.ptr_v (reflect.struct_v [])).

(** The write a successful [Set] on the named field leaves in [*this]. *)
Definition store (this : VirtualMachineIPAddress) (Field : string) (d : reflect.data)
    : VirtualMachineIPAddress :=
  match d with
  | reflect.string_v s =>
    if String.eqb Field "IPv4" then
      {| Options := Options this; IPv4 := s; Netmask := Netmask this;
         Gateway := Gateway this; Hostname := Hostname this |}
    else if String.eqb Field "Netmask" then
      {| Options := Options this; IPv4 := IPv4 this; Netmask := s;
         Gateway := Gateway this; Hostname := Hostname this |}
    else if String.eqb Field "Gateway" then
      {| Options := Options this; IPv4 := IPv4 this; Netmask := Netmask this;
         Gateway := s; Hostname := Hostname this |}
    else if String.eqb Field "Hostname" then
      {| Options := Options this; IPv4 := IPv4 this; Netmask := Netmask this;
         Gateway := Gateway this; Hostname := s |}
    else this
  | _ => this
  end.

Definition GetValidationRegexPatterns (this : VirtualMachineIPAddress) : gmap string string := ∅.

Definition FieldValueGenerators : gmap string (unit -> types.BaseCustomizationIpGenerator) :=
  {[ "Gateway" := fun _ => types.CustomizationCustomIpGenerator;
     "Netmask" := fun _ => types.CustomizationDhcpIpGenerator;
     "Hostname" := fun _ => types.CustomizationCustomIpGenerator ]}.

(** [maps.Keys]: the keys, in an order the program does not rely on. *)
Definition maps_Keys {V} (m : gmap string V) : list string := (map_to_list m).*1.

Section ValidateCredentials.
Variable U : unicode.
(** [regexp.MatchString pattern s]: whether [s] contains a match, and the
    error of a pattern that does not compile. *)
Variable regexp_MatchString : string -> string -> bool * option error.

(** One round of the validation loop. *)
Definition validate_field (this : VirtualMachineIPAddress) (Patterns : gmap string string)
    (InvalidValues : list string) (Index : nat) : outcome (list string) :=
  t ← reflect.Value_Type (ValueOf_this this);
  f ← reflect.Type_Field t Index;
  let pattern := default "" (Patterns !! strings_ToLower U (reflect.Name f)) in
  v ← reflect.Value_Field (ValueOf_this this) Index;
  let '(Matches, MatchError) := regexp_MatchString pattern (reflect.Value_String v) in
  if bool_decide (is_Some MatchError) || negb Matches then
    t' ← reflect.Value_Type (ValueOf_this this);
    f' ← reflect.Type_Field t' Index;
    Returned (InvalidValues ++ [reflect.Name f'])%list
  else Returned InvalidValues.

(** One round of the generation loop; the descriptor behind [this] is
    threaded through. *)
Definition generate_field (this : VirtualMachineIPAddress) (Field : string)
    : outcome VirtualMachineIPAddress :=
  if slices_Contains (maps_Keys FieldValueGenerators) (strings_ToTitle Field) then
    generator ←
      match FieldValueGenerators !! Field with
      | Some g => Returned g
      | None => Panicked "runtime error: invalid memory address or nil pointer dereference"
      end;
    let GeneratedValue := generator () in
    target ← reflect.Value_FieldByName (ValueOf_this this) Field;
    d ← reflect.Value_Set target (ValueOf_generator GeneratedValue);
    Returned (store this Field d)
  else Returned this.

Fixpoint for_each {A S} (body : S -> A -> outcome S) (l : list A) (s : S) : outcome S :=
  match l with
  | [] => Returned s
  | x :: rest => s' ← body s x; for_each body rest s'
  end.

(** The loop bound [reflect.TypeOf(this).NumField()] does not change
    between rounds; it is evaluated before the first round. *)
Definition ValidateCredentials (this : VirtualMachineIPAddress)
    : outcome VirtualMachineIPAddress :=
  let Patterns := GetValidationRegexPatterns this in
  NumField ← reflect.Type_NumField TypeOf_this;
  InvalidValues ← for_each (validate_field this Patterns) (seq 0 NumField) [];
  this ← for_each generate_field InvalidValues this;
  Returned this.

Definition SetupPublicNetwork (IPCredentials : VirtualMachineIPAddress)
    : outcome (option types.CustomizationSpec * option error) :=
  IPCredentials ← ValidateCredentials IPCredentials;
  let CustomizedIP :=
    {| types.Adapter :=
         {| types.Ip := types.CustomizationFixedIp (IPv4 IPCredentials);
            types.SubnetMask := Netmask IPCredentials;
            types.Gateway := [Gateway IPCredentials];
            types.IpV6Spec := [types.CustomizationAutoIpV6Generator] |} |} in
  let CustomizedIPSettings :=
    {| types.Options := Options IPCredentials;
       types.NicSettingMap := [CustomizedIP];
       types.Identity := types.CustomizationLinuxPrep (Hostname IPCredentials) |} in
  Returned (Some CustomizedIPSettings, None).

End ValidateCredentials.

Definition NewVirtualMachineIPAddress (IPv4 Netmask Gateway Hostname : string)
    : VirtualMachineIPAddress :=
  {| Options := None; IPv4 := IPv4; Netmask := Netmask;
     Gateway := Gateway; Hostname := Hostname |}.

(** The budget [SetupPrivateNetwork] gives its control-plane call. *)
Definition SetupPrivateNetwork_Timeout : Duration := (time_Minute * 1)%Z.

End network.

(** *** package unicode/utf8 *)

Module utf8.

Definition between (lo hi : nat) (c : ascii) : bool :=
  Nat.leb lo (nat_of_ascii c) && Nat.leb (nat_of_ascii c) hi.

Definition cont : ascii -> bool := between 128 191.

(** The length of the well-formed encoding [s] starts with, [0] when it
    starts with none (the ranges are those of the decoder's table: no
    overlong forms, no surrogates, nothing above U+10FFFF). *)
Definition rune_len (s : string) : nat :=
  match s with
  | String b0 rest =>
    if between 0 127 b0 then 1
    else match rest with
    | String b1 rest =>
      if between 194 223 b0 && cont b1 then 2
      else match rest with
      | String b2 rest =>
        if (between 224 224 b0 && between 160 191 b1 && cont b2)
           || (between 225 236 b0 && cont b1 && cont b2)
           || (between 237 237 b0 && between 128 159 b1 && cont b2)
           || (between 238 239 b0 && cont b1 && cont b2) then 3
        else match rest with
        | String b3 _ =>
          if (between 240 240 b0 && between 144 191 b1 && cont b2 && cont b3)
             || (between 241 243 b0 && cont b1 && cont b2 && cont b3)
             || (between 244 244 b0 && between 128 143 b1 && cont b2 && cont b3) then 4
          else 0
        | EmptyString => 0
        end
      | EmptyString => 0
      end
    | EmptyString => 0
    end
  | EmptyString => 0
  end.

Fixpoint skip (n : nat) (s : string) : string :=
  match n, s with
  | S n', String _ rest => skip n' rest
  | _, _ => s
  end.

Fixpoint take (n : nat) (s : string) : string :=
  match n, s with
  | S n', String c rest => String c (take n' rest)
  | _, _ => EmptyString
  end.

Fixpoint valid_upto (fuel : nat) (s : string) : bool :=
  match s, fuel with
  | EmptyString, _ => true
  | _, O => false
  | _, S fuel' =>
    match rune_len s with
    | O => false
    | n => valid_upto fuel' (skip n s)
    end
  end.

(** [utf8.ValidString] *)
Definition ValidString (s : string) : bool := valid_upto (String.length s) s.

(** U+FFFD, the replacement character, in UTF-8. *)
Definition RuneError : string :=
  String (ascii_of_nat 239) (String (ascii_of_nat 191) (String (ascii_of_nat 189) EmptyString)).

Fixpoint coerce_upto (fuel : nat) (s : string) : string :=
  match s, fuel with
  | EmptyString, _ => EmptyString
  | _, O => EmptyString
  | String _ rest, S fuel' =>
    match rune_len s with
    | O => RuneError +:+ coerce_upto fuel' rest
    | n => take n s +:+ coerce_upto fuel' (skip n s)
    end
  end.

(** What a string becomes when written as a JSON string and read back:
    every byte that does not start a well-formed encoding is replaced by
    U+FFFD. *)
Definition coerce (s : string) : string := coerce_upto (String.length s) s.

End utf8.

(** *** package encoding/json

    A JSON text is modelled by the document it denotes; the scanner that
    turns text into a document, and the printer that does the reverse, are
    the library's and are not modelled. *)

Module json.

#[warnings="-register-all"]
Inductive value :=
| JNull
| JBool (b : bool)
| JNumber (n : Z)            (* an integer literal *)
| JFraction (literal : string) (* any other number literal *)
| JString (s : string)
| JArray (elements : list value)
| JObject (members : list (string * value)).

Definition kind (v : value) : string :=
  match v with
  | JNull => "null"
  | JBool _ => "bool"
  | JNumber _ | JFraction _ => "number"
  | JString _ => "string"
  | JArray _ => "array"
  | JObject _ => "object"
  end.

Definition UnmarshalTypeError (v : value) (type : string) : error :=
  errors_New ("json: cannot unmarshal " +:+ kind v +:+ " into Go value of type " +:+ type).

Definition SyntaxError : error := errors_New "json: invalid character in the input".

(** **** struct tags *)

Fixpoint split_comma (s acc : string) : list string :=
  match s with
  | EmptyString => [String.rev acc]
  | String c rest =>
    if Ascii.eqb c "," then String.rev acc :: split_comma rest EmptyString
    else split_comma rest (String c acc)
  end.

(** [parseTag]: the name before the first comma, the options after it. *)
Definition parseTag (tag : string) : string * list string :=
  match split_comma tag EmptyString with
  | name :: options => (name, options)
  | [] => (EmptyString, [])
  end.

Definition tag_punctuation : string := "!#$%&()*+-./:;<=>?@[]^_{|}~ ".

Fixpoint contains_byte (s : string) (c : ascii) : bool :=
  match s with
  | EmptyString => false
  | String c' rest => Ascii.eqb c c' || contains_byte rest c
  end.

Definition valid_tag_byte (c : ascii) : bool :=
  contains_byte tag_punctuation c || is_upper c || is_lower c
  || utf8.between 48 57 c.

Fixpoint all_bytes (p : ascii -> bool) (s : string) : bool :=
  match s with
  | EmptyString => true
  | String c rest => p c && all_bytes p rest
  end.

Definition isValidTag (s : string) : bool :=
  negb (String.eqb s EmptyString) && all_bytes valid_tag_byte s.

(** A field of a struct type, as the encoder and the decoder see it: its Go
    name and the value of its [json] tag. *)
Record field := { go_name : string; tag : string }.

(** The key the field is written and looked up under. *)
Definition key (f : field) : string :=
  let name := (parseTag (tag f)).1 in
  if isValidTag name then name else go_name f.

Definition omitEmpty (f : field) : bool :=
  slices_Contains (parseTag (tag f)).2 "omitempty".

Fixpoint position {A} (p : A -> bool) (l : list A) : option nat :=
  match l with
  | [] => None
  | x :: rest => if p x then Some 0 else S <$> position p rest
  end.

(** The rest of [s] after the prefix [p]. *)
Fixpoint strip_prefix (p s : string) : option string :=
  match p, s with
  | EmptyString, _ => Some s
  | String c p', String d s' => if Ascii.eqb c d then strip_prefix p' s' else None
  | String _ _, EmptyString => None
  end.

(** The two runes outside ASCII that Unicode's simple case folding puts in
    one class with an ASCII letter: U+212A KELVIN SIGN with [k] and [K],
    U+017F LATIN SMALL LETTER LONG S with [s] and [S]; here in UTF-8. *)
Definition kelvin_sign : string :=
  String (ascii_of_nat 226) (String (ascii_of_nat 132) (String (ascii_of_nat 170) "")).
Definition long_s : string :=
  String (ascii_of_nat 197) (String (ascii_of_nat 191) "").

(** Equality under simple case folding ([bytes.EqualFold]) of a member name
    with a field key of ASCII bytes, as every key of this program is: a
    letter of the key is matched by the letter in either case and, for [k]
    and [s], by the rune folded with it; any other byte by itself only. *)
Fixpoint equalFold (name member : string) : bool :=
  match name with
  | EmptyString => String.eqb member EmptyString
  | String c name' =>
    match member with
    | EmptyString => false
    | String d member' =>
      if Ascii.eqb (lower_byte c) (lower_byte d) then equalFold name' member'
      else if Ascii.eqb (lower_byte c) "k" then
        match strip_prefix kelvin_sign member with
        | Some rest => equalFold name' rest
        | None => false
        end
      else if Ascii.eqb (lower_byte c) "s" then
        match strip_prefix long_s member with
        | Some rest => equalFold name' rest
        | None => false
        end
      else false
    end
  end.

(** The field a member of an object is stored into: the one whose key is
    the member's, or else the first whose key equals it under case
    folding. *)
Definition find_field (fields : list field) (member : string) : option nat :=
  match position (fun f => String.eqb (key f) member) fields with
  | Some i => Some i
  | None => position (fun f => equalFold (key f) member) fields
  end.

(** **** decoding into fields *)

Definition in_range (bits : nat) (n : Z) : bool :=
  (Z.leb (- 2 ^ (Z.of_nat bits - 1)) n && Z.ltb n (2 ^ (Z.of_nat bits - 1)))%Z.

(** Each decoder takes the document and the field's current value, and
    gives the field's new value and the type error to record, if any.
    [null] leaves a field as it is. *)
Definition decode_string (v : value) (old : string) : string * option error :=
  match v with
  | JString s => (s, None)
  | JNull => (old, None)
  | _ => (old, Some (UnmarshalTypeError v "string"))
  end.

Definition decode_bool (v : value) (old : bool) : bool * option error :=
  match v with
  | JBool b => (b, None)
  | JNull => (old, None)
  | _ => (old, Some (UnmarshalTypeError v "bool"))
  end.

Definition decode_int (bits : nat) (type : string) (v : value) (old : Z) : Z * option error :=
  match v with
  | JNumber n => if in_range bits n then (n, None) else (old, Some (UnmarshalTypeError v type))
  | JNull => (old, None)
  | _ => (old, Some (UnmarshalTypeError v type))
  end.

(** The first recorded error is the one reported. *)
Definition saveError (saved new : option error) : option error :=
  match saved with
  | Some e => Some e
  | None => new
  end.

Fixpoint decode_members {T} (set : nat -> value -> T -> T * option error)
    (fields : list field) (members : list (string * value)) (t : T) (saved : option error)
    : T * option error :=
  match members with
  | [] => (t, saved)
  | (k, v) :: rest =>
    match find_field fields k with
    | Some i =>
      let '(t', e) := set i v t in
      decode_members set fields rest t' (saveError saved e)
    | None => decode_members set fields rest t saved
    end
  end.

(** Decoding into a struct: members are stored in the order they come, a
    later duplicate overwrites an earlier one, unknown members are
    skipped; anything but an object or [null] is a type error. *)
Definition decode_struct {T} (type : string) (set : nat -> value -> T -> T * option error)
    (fields : list field) (v : value) (t : T) : T * option error :=
  match v with
  | JObject members => decode_members set fields members t None
  | JNull => (t, None)
  | _ => (t, Some (UnmarshalTypeError v type))
  end.

(** **** encoding fields *)

Definition encode_string (s : string) : value := JString (utf8.coerce s).

(** A member, left out when the field is tagged [omitempty] and empty. *)
Definition member (f : field) (empty : bool) (v : value) : list (string * value) :=
  if omitEmpty f && empty then [] else [(key f, v)].

End json.

(** *** govmomi: object, mo, vim25 *)

Module object.

(** A value of interface type [object.Reference]: its dynamic type and the
    managed object it refers to.  [nil] is [None] at the use site. *)
Record Reference := { dynamic : string; Reference_ : types.ManagedObjectReference }.

(** [r.Reference()], on an interface value that may be [nil]. *)
Definition Reference_of (r : option Reference) : outcome types.ManagedObjectReference :=
  match r with
  | Some r => Returned (Reference_ r)
  | None => Panicked "runtime error: invalid memory address or nil pointer dereference"
  end.

(** The type assertion [r.( *object.VirtualMachine )], in its one-result
    form: it panics unless that is the dynamic type. *)
Definition assert_VirtualMachine (r : option Reference) : outcome Reference :=
  match r with
  | None =>
    Panicked "interface conversion: interface is nil, not *object.VirtualMachine"
  | Some r =>
    if String.eqb (dynamic r) "*object.VirtualMachine" then Returned r
    else Panicked ("interface conversion: object.Reference is " +:+ dynamic r +:+
                   ", not *object.VirtualMachine")
  end.

Record Datastore := { Datastore_Reference : types.ManagedObjectReference }.

Definition NewDatastore (ref : types.ManagedObjectReference) : Datastore :=
  {| Datastore_Reference := ref |}.

End object.

Module mo.

Record Datacenter := { Datacenter_Self : types.ManagedObjectReference }.

Record VirtualMachine := {
  Self : types.ManagedObjectReference;
  Datastore : list types.ManagedObjectReference;
}.

End mo.

Module vim25.

(** The control plane behind a [vim25.Client], by the answers it gives.
    - [FindByInventoryPath ctx path]: the object found ([nil] when the path
      resolves to nothing) and the error of the call;
    - [RetrieveProperties ctx ref]: the error of the property request for
      the object, [nil] when the request is answered;
    - [NewReference_mo ref]: the result of asserting
      [object.NewReference(&Client, ref)] to [*mo.VirtualMachine], [None]
      when the assertion fails, as it does whenever [NewReference] gives a
      value of package [object]. *)
Record Client := {
  FindByInventoryPath : Context -> string -> option object.Reference * option error;
  RetrieveProperties : Context -> types.ManagedObjectReference -> option error;
  NewReference_mo : types.ManagedObjectReference -> option mo.VirtualMachine;
}.

End vim25.

Module property.

(** [Collector.RetrieveOne(ctx, obj, ps, dst)] with a [dst] of type
    [**mo.Datacenter], which is what [&MoDatacenter] is in [GetDatacenter]:
    the error of the request is returned as it is; the answer of a request
    without error is handed to [mo.LoadObjectContent], which panics on a
    destination that points to neither a struct nor a slice.  The
    destination is written in neither case. *)
Definition RetrieveOne (Client : vim25.Client) (ctx : Context)
    (obj : types.ManagedObjectReference) : outcome (option error) :=
  match vim25.RetrieveProperties Client ctx obj with
  | Some e => Returned (Some e)
  | None => Panicked "unexpected type"
  end.

End property.

(** [context.DeadlineExceeded], the error of a call that outlived its
    context's budget. *)
Definition context_DeadlineExceeded : error := errors_New "context deadline exceeded".

(** ** package models *)

Module models.

Record VirtualMachine := {
  ID : string;
  OwnerId : string;
  ItemPath : string;
}.

Definition zero : VirtualMachine := {| ID := ""; OwnerId := ""; ItemPath := "" |}.

Definition ErrRecordNotFound : error := errors_New "record not found".

(** The rows selected by [Where("id = ? AND owner_id = ?", id, owner)]. *)
Definition Where (Database : list VirtualMachine) (id owner : string) : list VirtualMachine :=
  List.filter (fun r => String.eqb (ID r) id && String.eqb (OwnerId r) owner) Database.

(** Modelled from the spec: package [models] (the [Database] handle and the
    [VirtualMachine] record) is not among the sources.  The lookup of step
    (a) of StorageProvisioner: "look up the VM record by {vmId, ownerId} in
    the external data store — absence or ownership mismatch is a
    NotFoundError".  The result is the record read into [Vm] and the
    [Error] of the query. *)
Definition Find (Database : list VirtualMachine) (id owner : string)
    : VirtualMachine * option error :=
  match Where Database id owner with
  | [] => (zero, Some ErrRecordNotFound)
  | Vm :: _ => (Vm, None)
  end.

End models.

(** ** package storage_config *)

Module storage_config.

Record VirtualMachineStorage := { CapacityInKB : Z }.

Definition NewVirtualMachineStorage (CapacityInKB : Z) : VirtualMachineStorage :=
  {| CapacityInKB := CapacityInKB |}.

(** Modelled from the spec: package [storage_config] is not among the
    sources.  Step (d) of StorageProvisioner: "build a disk device
    configuration sized to capacityKB", bound to the datastore. *)
Definition SetupStorageDisk (Credentials : VirtualMachineStorage) (Datastore : object.Datastore)
    : option types.VirtualDeviceConfigSpec * option error :=
  (Some {| types.CapacityInKB := CapacityInKB Credentials;
           types.Datastore := object.Datastore_Reference Datastore |}, None).

End storage_config.

(** ** package parsers *)

Module parsers.

Record DatacenterConfig := { ItemPath : string }.

Record Metadata_t := { VirtualMachineId : string; VmOwnerId : string }.
Record HostSystem_t := { DistributionName : string; Bit : Z }.
Record Network_t := {
  IP : string;
  Netmask : string;
  Hostname : string;
  Gateway : string;
  Enablev6 : bool;
  Enablev4 : bool;
}.
Record Resources_t := { CpuNum : Z; MemoryInMegabytes : Z }.
Record Disk_t := { CapacityInKB : Z }.

Record VirtualMachineCustomSpec := {
  Metadata : Metadata_t;
  HostSystem : HostSystem_t;
  Network : Network_t;
  Resources : Resources_t;
  Disk : Disk_t;
}.

(** *** The struct tags *)

Definition f_VirtualMachineId := {| json.go_name := "VirtualMachineId"; json.tag := "VirtualMachineId" |}.
Definition f_VmOwnerId := {| json.go_name := "VmOwnerId"; json.tag := "VmOwnerId" |}.
Definition f_DistributionName := {| json.go_name := "DistributionName"; json.tag := "DistributionName" |}.
Definition f_Bit := {| json.go_name := "Bit"; json.tag := "Bit;omitempty" |}.
Definition f_IP := {| json.go_name := "IP"; json.tag := "IP,omitempty" |}.
Definition f_Netmask := {| json.go_name := "Netmask"; json.tag := "Netmask,omitempty" |}.
Definition f_Hostname := {| json.go_name := "Hostname"; json.tag := "Hostname,omitempty" |}.
Definition f_Gateway := {| json.go_name := "Gateway"; json.tag := "Gateway,omitempty" |}.
Definition f_Enablev6 := {| json.go_name := "Enablev6"; json.tag := "Enablev6,omitempty" |}.
Definition f_Enablev4 := {| json.go_name := "Enablev4"; json.tag := "Enablev4,omitempty" |}.
Definition f_CpuNum := {| json.go_name := "CpuNum"; json.tag := "CpuNum" |}.
Definition f_MemoryInMegabytes := {| json.go_name := "MemoryInMegabytes"; json.tag := "MemoryInMegabytes" |}.
Definition f_CapacityInKB := {| json.go_name := "CapacityInKB"; json.tag := "CapacityInKB" |}.
Definition f_Metadata := {| json.go_name := "Metadata"; json.tag := "Metadata" |}.
Definition f_HostSystem := {| json.go_name := "HostSystem"; json.tag := "HostSystem" |}.
Definition f_Network := {| json.go_name := "Network"; json.tag := "Network" |}.
Definition f_Resources := {| json.go_name := "Resources"; json.tag := "Resources" |}.
Definition f_Disk := {| json.go_name := "Disk"; json.tag := "Disk" |}.

Definition Metadata_fields := [f_VirtualMachineId; f_VmOwnerId].
Definition HostSystem_fields := [f_DistributionName; f_Bit].
Definition Network_fields := [f_IP; f_Netmask; f_Hostname; f_Gateway; f_Enablev6; f_Enablev4].
Definition Resources_fields := [f_CpuNum; f_MemoryInMegabytes].
Definition Disk_fields := [f_CapacityInKB].
Definition VirtualMachineCustomSpec_fields :=
  [f_Metadata; f_HostSystem; f_Network; f_Resources; f_Disk].

(** *** Decoding: storing a document into the field at a position *)

Definition set_Metadata (i : nat) (v : json.value) (m : Metadata_t) : Metadata_t * option error :=
  match i with
  | 0 => let '(s, e) := json.decode_string v (VirtualMachineId m) in
         ({| VirtualMachineId := s; VmOwnerId := VmOwnerId m |}, e)
  | 1 => let '(s, e) := json.decode_string v (VmOwnerId m) in
         ({| VirtualMachineId := VirtualMachineId m; VmOwnerId := s |}, e)
  | _ => (m, None)
  end.

Definition set_HostSystem (i : nat) (v : json.value) (h : HostSystem_t) : HostSystem_t * option error :=
  match i with
  | 0 => let '(s, e) := json.decode_string v (DistributionName h) in
         ({| DistributionName := s; Bit := Bit h |}, e)
  | 1 => let '(n, e) := json.decode_int 64 "int64" v (Bit h) in
         ({| DistributionName := DistributionName h; Bit := n |}, e)
  | _ => (h, None)
  end.

Definition set_Network (i : nat) (v : json.value) (n : Network_t) : Network_t * option error :=
  match i with
  | 0 => let '(s, e) := json.decode_string v (IP n) in
         ({| IP := s; Netmask := Netmask n; Hostname := Hostname n; Gateway := Gateway n;
             Enablev6 := Enablev6 n; Enablev4 := Enablev4 n |}, e)
  | 1 => let '(s, e) := json.decode_string v (Netmask n) in
         ({| IP := IP n; Netmask := s; Hostname := Hostname n; Gateway := Gateway n;
             Enablev6 := Enablev6 n; Enablev4 := Enablev4 n |}, e)
  | 2 => let '(s, e) := json.decode_string v (Hostname n) in
         ({| IP := IP n; Netmask := Netmask n; Hostname := s; Gateway := Gateway n;
             Enablev6 := Enablev6 n; Enablev4 := Enablev4 n |}, e)
  | 3 => let '(s, e) := json.decode_string v (Gateway n) in
         ({| IP := IP n; Netmask := Netmask n; Hostname := Hostname n; Gateway := s;
             Enablev6 := Enablev6 n; Enablev4 := Enablev4 n |}, e)
  | 4 => let '(b, e) := json.decode_bool v (Enablev6 n) in
         ({| IP := IP n; Netmask := Netmask n; Hostname := Hostname n; Gateway := Gateway n;
             Enablev6 := b; Enablev4 := Enablev4 n |}, e)
  | 5 => let '(b, e) := json.decode_bool v (Enablev4 n) in
         ({| IP := IP n; Netmask := Netmask n; Hostname := Hostname n; Gateway := Gateway n;
             Enablev6 := Enablev6 n; Enablev4 := b |}, e)
  | _ => (n, None)
  end.

Definition set_Resources (i : nat) (v : json.value) (r : Resources_t) : Resources_t * option error :=
  match i with
  | 0 => let '(n, e) := json.decode_int 32 "int32" v (CpuNum r) in
         ({| CpuNum := n; MemoryInMegabytes := MemoryInMegabytes r |}, e)
  | 1 => let '(n, e) := json.decode_int 64 "int64" v (MemoryInMegabytes r) in
         ({| CpuNum := CpuNum r; MemoryInMegabytes := n |}, e)
  | _ => (r, None)
  end.

(** [int] is 64 bits wide on the platforms the service is built for. *)
Definition set_Disk (i : nat) (v : json.value) (d : Disk_t) : Disk_t * option error :=
  match i with
  | 0 => let '(n, e) := json.decode_int 64 "int" v (CapacityInKB d) in
         ({| CapacityInKB := n |}, e)
  | _ => (d, None)
  end.

Definition set_VirtualMachineCustomSpec (i : nat) (v : json.value) (c : VirtualMachineCustomSpec)
    : VirtualMachineCustomSpec * option error :=
  match i with
  | 0 => let '(x, e) := json.decode_struct "struct" set_Metadata Metadata_fields v (Metadata c) in
         ({| Metadata := x; HostSystem := HostSystem c; Network := Network c;
             Resources := Resources c; Disk := Disk c |}, e)
  | 1 => let '(x, e) := json.decode_struct "struct" set_HostSystem HostSystem_fields v (HostSystem c) in
         ({| Metadata := Metadata c; HostSystem := x; Network := Network c;
             Resources := Resources c; Disk := Disk c |}, e)
  | 2 => let '(x, e) := json.decode_struct "struct" set_Network Network_fields v (Network c) in
         ({| Metadata := Metadata c; HostSystem := HostSystem c; Network := x;
             Resources := Resources c; Disk := Disk c |}, e)
  | 3 => let '(x, e) := json.decode_struct "struct" set_Resources Resources_fields v (Resources c) in
         ({| Metadata := Metadata c; HostSystem := HostSystem c; Network := Network c;
             Resources := x; Disk := Disk c |}, e)
  | 4 => let '(x, e) := json.decode_struct "struct" set_Disk Disk_fields v (Disk c) in
         ({| Metadata := Metadata c; HostSystem := HostSystem c; Network := Network c;
             Resources := Resources c; Disk := x |}, e)
  | _ => (c, None)
  end.

(** [var config VirtualMachineCustomSpec] *)
Definition zero : VirtualMachineCustomSpec :=
  {| Metadata := {| VirtualMachineId := ""; VmOwnerId := "" |};
     HostSystem := {| DistributionName := ""; Bit := 0 |};
     Network := {| IP := ""; Netmask := ""; Hostname := ""; Gateway := "";
                   Enablev6 := false; Enablev4 := false |};
     Resources := {| CpuNum := 0; MemoryInMegabytes := 0 |};
     Disk := {| CapacityInKB := 0 |} |}.

(** [json.Unmarshal([]byte(Config), &config)] on the document [Config]
    denotes, [None] when [Config] is not a JSON text. *)
Definition Unmarshal (Config : option json.value) (config : VirtualMachineCustomSpec)
    : VirtualMachineCustomSpec * option error :=
  match Config with
  | None => (config, Some json.SyntaxError)
  | Some document =>
    json.decode_struct "parsers.VirtualMachineCustomSpec"
      set_VirtualMachineCustomSpec VirtualMachineCustomSpec_fields document config
  end.

Definition NewCustomConfig (Config : option json.value)
    : VirtualMachineCustomSpec * option error :=
  let config := zero in
  let '(config, DecodeError) := Unmarshal Config config in
  (config, DecodeError).

(** *** Encoding: the document [json.Marshal] writes for a value *)

Definition Marshal_Metadata (m : Metadata_t) : json.value :=
  json.JObject
    (json.member f_VirtualMachineId (String.eqb (VirtualMachineId m) "")
       (json.encode_string (VirtualMachineId m)) ++
     json.member f_VmOwnerId (String.eqb (VmOwnerId m) "")
       (json.encode_string (VmOwnerId m)))%list.

Definition Marshal_HostSystem (h : HostSystem_t) : json.value :=
  json.JObject
    (json.member f_DistributionName (String.eqb (DistributionName h) "")
       (json.encode_string (DistributionName h)) ++
     json.member f_Bit (Z.eqb (Bit h) 0) (json.JNumber (Bit h)))%list.

Definition Marshal_Network (n : Network_t) : json.value :=
  json.JObject
    (json.member f_IP (String.eqb (IP n) "") (json.encode_string (IP n)) ++
     json.member f_Netmask (String.eqb (Netmask n) "") (json.encode_string (Netmask n)) ++
     json.member f_Hostname (String.eqb (Hostname n) "") (json.encode_string (Hostname n)) ++
     json.member f_Gateway (String.eqb (Gateway n) "") (json.encode_string (Gateway n)) ++
     json.member f_Enablev6 (negb (Enablev6 n)) (json.JBool (Enablev6 n)) ++
     json.member f_Enablev4 (negb (Enablev4 n)) (json.JBool (Enablev4 n)))%list.

Definition Marshal_Resources (r : Resources_t) : json.value :=
  json.JObject
    (json.member f_CpuNum (Z.eqb (CpuNum r) 0) (json.JNumber (CpuNum r)) ++
     json.member f_MemoryInMegabytes (Z.eqb (MemoryInMegabytes r) 0)
       (json.JNumber (MemoryInMegabytes r)))%list.

Definition Marshal_Disk (d : Disk_t) : json.value :=
  json.JObject
    (json.member f_CapacityInKB (Z.eqb (CapacityInKB d) 0) (json.JNumber (CapacityInKB d))).

Definition Marshal (c : VirtualMachineCustomSpec) : json.value :=
  json.JObject
    (json.member f_Metadata false (Marshal_Metadata (Metadata c)) ++
     json.member f_HostSystem false (Marshal_HostSystem (HostSystem c)) ++
     json.member f_Network false (Marshal_Network (Network c)) ++
     json.member f_Resources false (Marshal_Resources (Resources c)) ++
     json.member f_Disk false (Marshal_Disk (Disk c)))%list.

(** *** The remote-bound stages *)

(** The budgets the two stages give their control-plane calls. *)
Definition GetDatacenter_Timeout : Duration := (time_Minute * 10)%Z.
Definition GetDiskStorageConfig_Timeout : Duration := (time_Minute * 1)%Z.

Definition GetDatacenter (this : DatacenterConfig) (Client : vim25.Client)
    : outcome (option mo.Datacenter * option error) :=
  let MoDatacenter : option mo.Datacenter := None in
  let TimeoutContext := context_WithTimeout context_Background GetDatacenter_Timeout in
  let '(Datacenter, FindError) :=
    vim25.FindByInventoryPath Client TimeoutContext (ItemPath this) in
  ref ← object.Reference_of Datacenter;
  RetrieveError ← property.RetrieveOne Client TimeoutContext ref;
  if bool_decide (is_Some FindError) || bool_decide (is_Some RetrieveError) then
    Returned (None, Some (errors_New "Datacenter Does Not Exist"))
  else Returned (MoDatacenter, None).

(** The function literal that receives the virtual machine by the metadata
    of the configuration. *)
Definition find_VirtualMachine (Database : list models.VirtualMachine)
    (this : VirtualMachineCustomSpec) (Client : vim25.Client)
    : outcome (option object.Reference * option error) :=
  let TimeoutContext := context_WithTimeout context_Background GetDiskStorageConfig_Timeout in
  let '(Vm, Gorm_Error) :=
    models.Find Database (VirtualMachineId (Metadata this)) (VmOwnerId (Metadata this)) in
  match Gorm_Error with
  | Some e => Returned (None, Some e)
  | None =>
    let '(VirtualMachine, FindError) :=
      vim25.FindByInventoryPath Client TimeoutContext (models.ItemPath Vm) in
    VirtualMachine ← object.assert_VirtualMachine VirtualMachine;
    Returned (Some VirtualMachine, FindError)
  end.

Definition GetDiskStorageConfig (Database : list models.VirtualMachine)
    (this : VirtualMachineCustomSpec) (Client : vim25.Client)
    : outcome (option types.VirtualDeviceConfigSpec * option error) :=
  '(VirtualMachine, FindError) ← find_VirtualMachine Database this Client;
  match FindError with
  | Some e => Returned (None, Some e)
  | None =>
    ref ← object.Reference_of VirtualMachine;
    MoVirtualMachine ←
      match vim25.NewReference_mo Client ref with
      | Some m => Returned m
      | None =>
        Panicked "interface conversion: object.Reference is not *mo.VirtualMachine"
      end;
    Datastore0 ← index (mo.Datastore MoVirtualMachine) 0;
    let Datastore := object.NewDatastore Datastore0 in
    let DiskDeviceStorageCredentials :=
      storage_config.NewVirtualMachineStorage (CapacityInKB (Disk this)) in
    let '(Configuration, SetupError) :=
      storage_config.SetupStorageDisk DiskDeviceStorageCredentials Datastore in
    Returned (Configuration, SetupError)
  end.

(** [regexp.MatchString] is handed on to the network package. *)
Definition GetNetworkConfig (U : unicode)
    (regexp_MatchString : string -> string -> bool * option error)
    (this : VirtualMachineCustomSpec) (Client : vim25.Client)
    : outcome (option types.CustomizationSpec * option error) :=
  let IPCredentials :=
    network.NewVirtualMachineIPAddress (IP (Network this)) (Netmask (Network this))
      (Gateway (Network this)) (Hostname (Network this)) in
  '(NetworkConfig, SetupError) ← network.SetupPublicNetwork U regexp_MatchString IPCredentials;
  Returned (NetworkConfig, SetupError).

(** *** The datacenter configuration *)

Definition f_Datacenter := {| json.go_name := "Datacenter"; json.tag := "Datacenter" |}.
Definition f_ItemPath := {| json.go_name := "ItemPath"; json.tag := "ItemPath" |}.

Definition Datacenter_fields := [f_ItemPath].
Definition DatacenterConfig_fields := [f_Datacenter].

(** The inner struct [Datacenter] has the one field [ItemPath], which is all
    the record [DatacenterConfig] keeps. *)
Definition set_Datacenter (i : nat) (v : json.value) (c : DatacenterConfig)
    : DatacenterConfig * option error :=
  match i with
  | 0 => let '(s, e) := json.decode_string v (ItemPath c) in ({| ItemPath := s |}, e)
  | _ => (c, None)
  end.

Definition set_DatacenterConfig (i : nat) (v : json.value) (c : DatacenterConfig)
    : DatacenterConfig * option error :=
  match i with
  | 0 => json.decode_struct "struct" set_Datacenter Datacenter_fields v c
  | _ => (c, None)
  end.

(** [var config *DatacenterConfig; json.Unmarshal([]byte(Config), &config)]:
    the destination is a [nil] pointer.  A text that is not JSON leaves it
    [nil]; [null] stores [nil]; any other document allocates the struct
    before it is decoded into. *)
Definition NewHardwareConfig (Config : option json.value)
    : option DatacenterConfig * option error :=
  match Config with
  | None => (None, Some json.SyntaxError)
  | Some json.JNull => (None, None)
  | Some document =>
    let '(config, DecodedError) :=
      json.decode_struct "parsers.DatacenterConfig" set_DatacenterConfig
        DatacenterConfig_fields document {| ItemPath := "" |} in
    (Some config, DecodedError)
  end.

(** The document [json.Marshal] writes for a [*DatacenterConfig]. *)
Definition Marshal_DatacenterConfig (config : option DatacenterConfig) : json.value :=
  match config with
  | None => json.JNull
  | Some c =>
    json.JObject
      (json.member f_Datacenter false
         (json.JObject
            (json.member f_ItemPath (String.eqb (ItemPath c) "")
               (json.encode_string (ItemPath c)))))
  end.

(** The method [GetDatacenter] called through a pointer that may be [nil]:
    the receiver is first read at [this.Datacenter.ItemPath], the argument
    of the lookup. *)
Definition GetDatacenter_method (this : option DatacenterConfig) (Client : vim25.Client)
    : outcome (option mo.Datacenter * option error) :=
  match this with
  | None => Panicked "runtime error: invalid memory address or nil pointer dereference"
  | Some this => GetDatacenter this Client
  end.

End parsers.

(** *** package path *)

Module path.

Fixpoint split (sep : ascii) (s acc : string) : list string :=
  match s with
  | EmptyString => [String.rev acc]
  | String c rest =>
    if Ascii.eqb c sep then String.rev acc :: split sep rest EmptyString
    else split sep rest (String c acc)
  end.

(** The elements of a rooted path that remain: empty elements and ["."]
    are dropped, [".."] drops the element before it and is dropped itself
    when there is none. *)
Fixpoint clean (elements kept : list string) : list string :=
  match elements with
  | [] => rev kept
  | e :: rest =>
    if String.eqb e "" || String.eqb e "." then clean rest kept
    else if String.eqb e ".." then clean rest (tail kept)
    else clean rest (e :: kept)
  end.

Fixpoint join (elements : list string) : string :=
  match elements with
  | [] => ""
  | [e] => e
  | e :: rest => e +:+ "/" +:+ join rest
  end.

(** [path.Join(a, b)] for a rooted [a]: the shortest equivalent of [a/b]. *)
Definition Join (a b : string) : string :=
  "/" +:+ join (clean (split "/" (a +:+ "/" +:+ b) EmptyString) []).

End path.

(** *** gin: the router

    A handler is known by its name.  A route carries the chain of handlers
    that runs for it, fixed when the route is registered. *)

Module gin.

Definition HandlerFunc := string.

Record RouterGroup := { Handlers : list HandlerFunc; basePath : string }.

Record route := { method : string; route_path : string; chain : list HandlerFunc }.

(** The engine: its own router group and the routes registered so far. *)
Record Engine := { root : RouterGroup; trees : list route }.

Definition last_byte (s : string) : option ascii :=
  match String.rev s with
  | String c _ => Some c
  | EmptyString => None
  end.

Definition ends_with_slash (s : string) : bool :=
  match last_byte s with
  | Some c => Ascii.eqb c "/"
  | None => false
  end.

Definition joinPaths (absolutePath relativePath : string) : string :=
  if String.eqb relativePath "" then absolutePath
  else
    let finalPath := path.Join absolutePath relativePath in
    if ends_with_slash relativePath && negb (ends_with_slash finalPath)
    then finalPath +:+ "/" else finalPath.

(** [gin.Default()]: a new engine with the logger and the recovery
    middleware in use. *)
Definition Default : Engine :=
  {| root := {| Handlers := ["gin.Logger"; "gin.Recovery"]; basePath := "/" |};
     trees := [] |}.

(** [engine.Use(middleware...)]: appended to the handlers of the engine's
    group; routes already registered keep their chain. *)
Definition Use (engine : Engine) (middleware : list HandlerFunc) : Engine :=
  {| root := {| Handlers := Handlers (root engine) ++ middleware;
                basePath := basePath (root engine) |};
     trees := trees engine |}.

(** [group.Group(relativePath)]: a new group; the receiver is not changed. *)
Definition Group (group : RouterGroup) (relativePath : string) : RouterGroup :=
  {| Handlers := Handlers group; basePath := joinPaths (basePath group) relativePath |}.

(** [group.Use(middleware...)] on a group other than the engine's. *)
Definition Group_Use (group : RouterGroup) (middleware : list HandlerFunc) : RouterGroup :=
  {| Handlers := Handlers group ++ middleware; basePath := basePath group |}.

Definition registered (engine : Engine) (httpMethod absolutePath : string) : bool :=
  existsb (fun r => String.eqb (method r) httpMethod && String.eqb (route_path r) absolutePath)
          (trees engine).

(** [engine.Handle(httpMethod, relativePath, handlers...)], for paths
    without parameters: the route is added under the engine's base path
    with the handlers now in use before its own; registering a method and
    path a second time panics. *)
Definition Handle (engine : Engine) (httpMethod relativePath : string)
    (handlers : list HandlerFunc) : outcome Engine :=
  let absolutePath := joinPaths (basePath (root engine)) relativePath in
  if registered engine httpMethod absolutePath then
    Panicked ("handlers are already registered for path '" +:+ absolutePath +:+ "'")
  else
    Returned {| root := root engine;
                trees := trees engine ++
                  [{| method := httpMethod; route_path := absolutePath;
                      chain := Handlers (root engine) ++ handlers |}] |}.

Definition GET (engine : Engine) := Handle engine "GET".
Definition POST (engine : Engine) := Handle engine "POST".
Definition PUT (engine : Engine) := Handle engine "PUT".
Definition DELETE (engine : Engine) := Handle engine "DELETE".

(** The chain that runs for a request, [None] when no route is registered
    for its method and path. *)
Definition handlers_for (engine : Engine) (httpMethod requestPath : string)
    : option (list HandlerFunc) :=
  chain <$> List.find
    (fun r => String.eqb (method r) httpMethod && String.eqb (route_path r) requestPath)
    (trees engine).

End gin.

(** ** package main *)

Module main.

Definition JwtAuthenticationMiddleware : gin.HandlerFunc :=
  "middlewares.JwtAuthenticationMiddleware".
Definition IsVirtualMachineOwnerMiddleware : gin.HandlerFunc :=
  "middlewares.IsVirtualMachineOwnerMiddleware".

(** The routing table [Run] sets up before it starts to listen.  The groups
    it opens are not kept: every route is registered on [Router] itself. *)
Definition Run_routes : outcome gin.Engine :=
  let Router := gin.Default in
  let Router := gin.Use Router ["cors.New"] in
  Router ← gin.GET Router "/ping/" ["func(context *gin.Context)"];
  let _ := gin.Group (gin.root Router) "/customer/" in
  Router ← gin.POST Router "/login/" ["customer_rest.LoginRestController"];
  Router ← gin.POST Router "/logout/" ["customer_rest.LogoutRestController"];
  Router ← gin.POST Router "/create/" ["customer_rest.CreateCustomerRestController"];
  Router ← gin.PUT Router "/reset/password/" ["customer_rest.ResetPasswordRestController"];
  Router ← gin.DELETE Router "/delete/" ["customer_rest.DeleteCustomerRestController"];
  Router ← gin.GET Router "/get/profile/" ["customer_rest.GetCustomerProfileRestController"];
  let _ := gin.Group_Use (gin.Group (gin.root Router) "/vm/")
             [JwtAuthenticationMiddleware; IsVirtualMachineOwnerMiddleware] in
  Router ← gin.POST Router "/initialize/" ["vm_rest.InitializeVirtualMachineRestController"];
  Router ← gin.PUT Router "/deploy/" ["vm_rest.DeployVirtualMachineRestController"];
  Router ← gin.DELETE Router "/remove/" ["vm_rest.RemoveVirtualMachineRestController"];
  Router ← gin.POST Router "/start/" ["vm_rest.StartVirtualMachineRestController"];
  Router ← gin.POST Router "/reboot/" ["vm_rest.RebootVirtualMachineRestController"];
  Router ← gin.DELETE Router "/shutdown/" ["vm_rest.ShutdownVirtualMachineRestController"];
  let Router := gin.Use Router [IsVirtualMachineOwnerMiddleware] in
  Router ← gin.GET Router "/get/list/" ["vm_rest.GetCustomerVirtualMachine"];
  Router ← gin.GET Router "/get/" ["vm_rest.GetCustomerVirtualMachines"];
  let Router := gin.Use Router [IsVirtualMachineOwnerMiddleware] in
  Router ← gin.GET Router "/health/metrics/"
             ["healthcheck_rest.GetVirtualMachineHealthMetricRestController"];
  let _ := gin.Group_Use (gin.Group (gin.root Router) "/host/")
             [IsVirtualMachineOwnerMiddleware] in
  Router ← gin.POST Router "system/start/" ["vm_rest.StartGuestOSRestController"];
  Router ← gin.PUT Router "system/restart/" ["vm_rest.RebootGuestOSRestController"];
  Router ← gin.DELETE Router "system/shutdown/" ["vm_rest.ShutdownGuestOsRestController"];
  let _ := gin.Group (gin.root Router) "/suggestions/" in
  let Router := gin.Use Router [JwtAuthenticationMiddleware] in
  Router ← gin.POST Router "/datacenter/" ["suggestion_rest.GetDatacenterSuggestions"];
  let _ := gin.Group (gin.root Router) "/support/" in
  let Router := gin.Use Router [JwtAuthenticationMiddleware] in
  Router ← gin.POST Router "/feedback/" ["customer_rest.SupportRestController"];
  Returned Router.

(** The routes of the server, none if setting them up panics. *)
Definition routes : list gin.route :=
  match Run_routes with
  | Returned Router => gin.trees Router
  | Panicked _ => []
  end.

End main.


(** * Statements *)

(** ** Inputs and panics named in the properties *)

Definition NumField_panic : string :=
  "reflect: NumField of non-struct type *network.VirtualMachineIPAddress".

(** The contexts the two stages make their calls under. *)
Definition GetDatacenter_Context : Context :=
  context_WithTimeout context_Background parsers.GetDatacenter_Timeout.

Definition GetDiskStorageConfig_Context : Context :=
  context_WithTimeout context_Background parsers.GetDiskStorageConfig_Timeout.

Section Scenario.
Import parsers.

(** The spec of the first scenario. *)
Definition scenario : VirtualMachineCustomSpec :=
  {| Metadata := {| VirtualMachineId := "vm-1"; VmOwnerId := "owner-9" |};
     HostSystem := {| DistributionName := "ubuntu"; Bit := 64 |};
     Network := {| IP := ""; Netmask := "255.255.255.0"; Hostname := "vm-1";
                   Gateway := ""; Enablev6 := false; Enablev4 := true |};
     Resources := {| CpuNum := 2; MemoryInMegabytes := 4096 |};
     Disk := {| CapacityInKB := 20000 |} |}.

(** A value of the struct type: every integer within the range of its Go
    type, every string valid UTF-8. *)
Definition well_formed (c : VirtualMachineCustomSpec) : Prop :=
  utf8.ValidString (VirtualMachineId (Metadata c)) = true
  /\ utf8.ValidString (VmOwnerId (Metadata c)) = true
  /\ utf8.ValidString (DistributionName (HostSystem c)) = true
  /\ json.in_range 64 (Bit (HostSystem c)) = true
  /\ utf8.ValidString (IP (Network c)) = true
  /\ utf8.ValidString (Netmask (Network c)) = true
  /\ utf8.ValidString (Hostname (Network c)) = true
  /\ utf8.ValidString (Gateway (Network c)) = true
  /\ json.in_range 32 (CpuNum (Resources c)) = true
  /\ json.in_range 64 (MemoryInMegabytes (Resources c)) = true
  /\ json.in_range 64 (CapacityInKB (Disk c)) = true.

End Scenario.

(** ** Control planes and data stores to run the stages against *)

Definition vm_42 : types.ManagedObjectReference :=
  {| types.Type_ := "VirtualMachine"; types.Value := "vm-42" |}.
Definition datacenter_2 : types.ManagedObjectReference :=
  {| types.Type_ := "Datacenter"; types.Value := "datacenter-2" |}.

(** An inventory with one datacenter and one virtual machine; every call is
    answered at once and without error.  [object.NewReference] gives a
    [*object.VirtualMachine] for the machine, which is no
    [*mo.VirtualMachine]. *)
Definition inventory : vim25.Client :=
  {| vim25.FindByInventoryPath := fun _ path =>
       if String.eqb path "/DC0" then
         (Some {| object.dynamic := "*object.Datacenter"; object.Reference_ := datacenter_2 |}, None)
       else if String.eqb path "/DC0/vm/vm-1" then
         (Some {| object.dynamic := "*object.VirtualMachine"; object.Reference_ := vm_42 |}, None)
       else (None, None);
     vim25.RetrieveProperties := fun _ _ => None;
     vim25.NewReference_mo := fun _ => None |}.

Definition expired (ctx : Context) (latency : Duration) : bool :=
  match Deadline ctx with
  | Some budget => Z.leb budget latency
  | None => false
  end.

(** The same control plane when each of the named calls takes [latency] to
    answer: a call whose context's budget is used up first comes back with
    [context.DeadlineExceeded]. *)
Definition slow_lookup (latency : Duration) (c : vim25.Client) : vim25.Client :=
  {| vim25.FindByInventoryPath := fun ctx path =>
       if expired ctx latency then (None, Some context_DeadlineExceeded)
       else vim25.FindByInventoryPath c ctx path;
     vim25.RetrieveProperties := vim25.RetrieveProperties c;
     vim25.NewReference_mo := vim25.NewReference_mo c |}.

Definition slow_retrieval (latency : Duration) (c : vim25.Client) : vim25.Client :=
  {| vim25.FindByInventoryPath := vim25.FindByInventoryPath c;
     vim25.RetrieveProperties := fun ctx ref =>
       if expired ctx latency then Some context_DeadlineExceeded
       else vim25.RetrieveProperties c ctx ref;
     vim25.NewReference_mo := vim25.NewReference_mo c |}.

(** The datacenter is found and then removed before it is retrieved. *)
Definition vanished (c : vim25.Client) : vim25.Client :=
  {| vim25.FindByInventoryPath := vim25.FindByInventoryPath c;
     vim25.RetrieveProperties := fun _ _ =>
       Some (errors_New "ServerFaultCode: The object has already been deleted or has not been completely created");
     vim25.NewReference_mo := vim25.NewReference_mo c |}.

Definition DC0 : parsers.DatacenterConfig := {| parsers.ItemPath := "/DC0" |}.
Definition nowhere : parsers.DatacenterConfig := {| parsers.ItemPath := "/DC9" |}.

Definition vm_1_of (owner : string) : models.VirtualMachine :=
  {| models.ID := "vm-1"; models.OwnerId := owner; models.ItemPath := "/DC0/vm/vm-1" |}.

(** Case tables to run the examples with.  They leave a string that has a
    byte outside ASCII as it is; the names of the examples are ASCII, for
    which [strings.ToLower] does not consult the tables. *)
Definition caseless : unicode := {| Map_ToLower := fun s => s |}.

(** ** The statement of C2 *)

(** A field fails validation when it is empty (the
    spec's "empty-when-required"); the fields to be named are the failing
    ones that have no entry in [FieldValueGenerators]. *)
Definition identity_fields (d : network.VirtualMachineIPAddress) : list (string * string) :=
  [("IPv4", network.IPv4 d); ("Netmask", network.Netmask d);
   ("Gateway", network.Gateway d); ("Hostname", network.Hostname d)].

Definition empty_without_generator (d : network.VirtualMachineIPAddress) : list string :=
  (List.filter
     (fun f => String.eqb f.2 "" && negb (bool_decide (is_Some (network.FieldValueGenerators !! f.1))))
     (identity_fields d)).*1.

(** The error mentions exactly the given ones of the four field names. *)
Definition names (e : error) (fields : list string) : Prop :=
  forall f, In f ["IPv4"; "Netmask"; "Gateway"; "Hostname"] ->
            In f fields <-> is_Some (String.index 0 f (Error e)).

Definition reports_every_invalid_field : Prop :=
  forall U regexp_MatchString d,
    empty_without_generator d <> [] ->
    exists e,
      returned_error (network.SetupPublicNetwork U regexp_MatchString d) = Some e
      /\ names e (empty_without_generator d).

(** ** The statement of C6 *)

(** Two different errors, one for a path that resolves
    to no object, one for a call that outlives its budget. *)
Definition resolves_to_nothing (Client : vim25.Client) (this : parsers.DatacenterConfig) : Prop :=
  forall ctx, vim25.FindByInventoryPath Client ctx (parsers.ItemPath this) = (None, None).

Definition exceeds_budget (Client : vim25.Client) (this : parsers.DatacenterConfig) : Prop :=
  (vim25.FindByInventoryPath Client GetDatacenter_Context (parsers.ItemPath this)).2
    = Some context_DeadlineExceeded
  \/ exists Datacenter,
       (vim25.FindByInventoryPath Client GetDatacenter_Context (parsers.ItemPath this)).1
         = Some Datacenter
       /\ vim25.RetrieveProperties Client GetDatacenter_Context (object.Reference_ Datacenter)
         = Some context_DeadlineExceeded.

Definition distinguishes_absence_from_timeout : Prop :=
  exists NotFoundError TimeoutError : error,
    NotFoundError <> TimeoutError
    /\ forall this Client,
         (resolves_to_nothing Client this ->
          parsers.GetDatacenter this Client = Returned (None, Some NotFoundError))
         /\ (exceeds_budget Client this ->
          parsers.GetDatacenter this Client = Returned (None, Some TimeoutError))
         /\ (parsers.GetDatacenter this Client = Returned (None, Some TimeoutError) ->
          exceeds_budget Client this).

(** ** Notions used by the further properties *)

(** A member of an object is known to a struct type when its key selects
    one of the fields. *)
Definition known_member (fields : list json.field) (m : string * json.value) : bool :=
  bool_decide (is_Some (json.find_field fields m.1)).

(** Some object inside the document has a member whose key is, up to
    case, the key of the field [Bit]. *)
Definition spells_Bit_tag (document : json.value) : Prop :=
  exists top k members k' v,
    document = json.JObject top
    /\ In (k, json.JObject members) top
    /\ In (k', v) members
    /\ ascii_ToLower k' = "bit;omitempty".

(** The groups [Run] opens and does not keep. *)
Definition group_prefixes : list string :=
  ["/customer/"; "/vm/"; "/host/"; "/suggestions/"; "/support/"].

(** The routes for the customer's account and for the life cycle of a
    virtual machine, as [Run] registers them. *)
Definition account_and_lifecycle_routes : list (string * string) :=
  [("POST", "/login/"); ("POST", "/logout/"); ("POST", "/create/");
   ("PUT", "/reset/password/"); ("DELETE", "/delete/"); ("GET", "/get/profile/");
   ("POST", "/initialize/"); ("PUT", "/deploy/"); ("DELETE", "/remove/");
   ("POST", "/start/"); ("POST", "/reboot/"); ("DELETE", "/shutdown/")].

(** What runs for a request to the server: the chain of the route [Run]
    registered for its method and path, if any. *)
Definition served (httpMethod requestPath : string) : option (list gin.HandlerFunc) :=
  match main.Run_routes with
  | Returned Router => gin.handlers_for Router httpMethod requestPath
  | Panicked _ => None
  end.

(** * Properties *)

(** ** HostSystemCustomizer *)

Section HostSystemCustomizer.
Import host_system.

Lemma slices_Contains_In (s : list string) (v : string) :
  slices_Contains s v = true <-> In v s.
Proof.
  unfold slices_Contains. rewrite existsb_exists. split.
  - intros (x & Hx & Heq). apply String.eqb_eq in Heq. now subst.
  - intros Hin. exists v. split; [exact Hin | apply String.eqb_refl].
Qed.


(** With nothing in its two slices, the function knows no distribution. *)
Lemma GetDefaultCustomizationOptions_unsupported U (SystemName : string) :
  GetDefaultCustomizationOptions U SystemName
  = (None, Some (errors_New "Invalid Host System Name")).
Proof. reflexivity. Qed.

(** The caller turns that error into its own. *)
Lemma SetupHostSystem_unsupported U Device Credentials :
  SetupHostSystem U Device Credentials
  = (None, Some (errors_New "Invalid Operational System Name")).
Proof. reflexivity. Qed.



End HostSystemCustomizer.

(** ** NetworkCustomizer *)

Section NetworkCustomizer.
Import network.

Variable U : unicode.
Variable regexp_MatchString : string -> string -> bool * option error.

Local Abbreviation ValidateCredentials := (ValidateCredentials U regexp_MatchString).
Local Abbreviation SetupPublicNetwork := (SetupPublicNetwork U regexp_MatchString).

(** The loop bound is asked of the pointer type of the receiver, which has
    no fields to count. *)
Lemma TypeOf_this_NumField : reflect.Type_NumField TypeOf_this = Panicked NumField_panic.
Proof. reflexivity. Qed.

Lemma ValidateCredentials_NumField (this : VirtualMachineIPAddress) :
  ValidateCredentials this = Panicked NumField_panic.
Proof. reflexivity. Qed.

Lemma SetupPublicNetwork_NumField (IPCredentials : VirtualMachineIPAddress) :
  SetupPublicNetwork IPCredentials = Panicked NumField_panic.
Proof. reflexivity. Qed.

(** The only [return] of [SetupPublicNetwork] has a [nil] error, whatever
    the validation did. *)
Lemma SetupPublicNetwork_nil_error (IPCredentials : VirtualMachineIPAddress) :
  returned_error (SetupPublicNetwork IPCredentials) = None.
Proof.
  unfold network.SetupPublicNetwork.
  destruct (ValidateCredentials IPCredentials); reflexivity.
Qed.

(** The lookup in the generator table is made with the upper-cased field
    name, which is none of its keys. *)
Lemma generator_lookup_misses :
  Forall (fun Field =>
            slices_Contains (maps_Keys FieldValueGenerators) (strings_ToTitle Field) = false)
         ["Options"; "IPv4"; "Netmask"; "Gateway"; "Hostname"].
Proof. repeat constructor. Qed.

Lemma IPv4_has_no_generator : FieldValueGenerators !! "IPv4" = None.
Proof. reflexivity. Qed.

(** C10.  [ValidateCredentials] is not total: on every descriptor, whatever
    its four fields hold, the validation loop panics when it asks the
    receiver's type for its number of fields, before the first round; and
    so does [SetupPublicNetwork], which calls it first. *)
Theorem ValidateCredentials_panics_on_every_input (this : VirtualMachineIPAddress) :
  ValidateCredentials this = Panicked NumField_panic
  /\ panicked (SetupPublicNetwork this) = true.
Proof.
  split; [apply ValidateCredentials_NumField|].
  now rewrite SetupPublicNetwork_NumField.
Qed.

(** C4.  On a descriptor whose four identity fields are populated with
    well-formed values, [SetupPublicNetwork] does not return them: it
    returns nothing, the call panics in the validation loop. *)
Theorem SetupPublicNetwork_populated_descriptor_panics :
  let IPCredentials :=
    NewVirtualMachineIPAddress "10.0.0.5" "255.255.255.0" "10.0.0.1" "vm-1" in
  SetupPublicNetwork IPCredentials = Panicked NumField_panic
  /\ returned_value (SetupPublicNetwork IPCredentials) = None.
Proof.
  intros IPCredentials. now rewrite SetupPublicNetwork_NumField.
Qed.

(** Validation never succeeds: on the descriptor with four empty fields the
    call panics, and for no descriptor does [SetupPublicNetwork] return a
    customization spec.  What holds of the descriptors handed back after a
    validation that succeeded therefore holds of none. *)
Lemma SetupPublicNetwork_never_returns_a_spec :
  SetupPublicNetwork (NewVirtualMachineIPAddress "" "" "" "") = Panicked NumField_panic
  /\ forall IPCredentials, returned_value (SetupPublicNetwork IPCredentials) = None.
Proof.
  split; [apply SetupPublicNetwork_NumField|].
  intros IPCredentials. now rewrite SetupPublicNetwork_NumField.
Qed.

(** C2, as amended.  [SetupPublicNetwork] has no validation failure to
    report: for every descriptor the error it returns is [nil]; the names
    collected in [InvalidValues] do not leave [ValidateCredentials]. *)
Theorem SetupPublicNetwork_reports_no_error (IPCredentials : VirtualMachineIPAddress) :
  returned_error (SetupPublicNetwork IPCredentials) = None.
Proof. apply SetupPublicNetwork_nil_error. Qed.

End NetworkCustomizer.

Lemma empty_descriptor_fields :
  empty_without_generator (network.NewVirtualMachineIPAddress "" "" "" "") = ["IPv4"].
Proof. reflexivity. Qed.

(** C2, as stated, fails: the descriptor with four empty fields has one
    failing field without a generator, [IPv4], and no error comes back. *)
Lemma reports_every_invalid_field_counterexample : ~ reports_every_invalid_field.
Proof.
  intros Hclaim.
  destruct (Hclaim caseless (fun _ _ => (true, None))
              (network.NewVirtualMachineIPAddress "" "" "" ""))
    as (e & He & _).
  - rewrite empty_descriptor_fields. discriminate.
  - rewrite SetupPublicNetwork_nil_error in He. discriminate He.
Qed.

(** ** SpecDecoder *)

Section SpecDecoder.
Import parsers.

Lemma take_skip (n : nat) (s : string) : utf8.take n s +:+ utf8.skip n s = s.
Proof.
  revert s. induction n as [|n IH]; intros [|c s]; simpl; try reflexivity.
  change (String c (utf8.take n s +:+ utf8.skip n s) = String c s).
  f_equal. apply IH.
Qed.

Lemma coerce_valid_upto (fuel : nat) (s : string) :
  utf8.valid_upto fuel s = true -> utf8.coerce_upto fuel s = s.
Proof.
  revert s. induction fuel as [|fuel IH]; intros [|c s] Hvalid;
    cbn [utf8.valid_upto utf8.coerce_upto] in *; try reflexivity; try discriminate.
  destruct (utf8.rune_len (String c s)) as [|n] eqn:Hlen; [discriminate|].
  rewrite (IH _ Hvalid). apply take_skip.
Qed.

(** Valid UTF-8 is written to a JSON string and read back unchanged. *)
Lemma coerce_ValidString (s : string) : utf8.ValidString s = true -> utf8.coerce s = s.
Proof. apply coerce_valid_upto. Qed.

Lemma member_kept (f : json.field) (empty : bool) (v : json.value) :
  json.omitEmpty f = false -> json.member f empty v = [(json.key f, v)].
Proof. unfold json.member. now intros ->. Qed.

Lemma member_omitempty (f : json.field) (empty : bool) (v : json.value) :
  json.omitEmpty f = true ->
  json.member f empty v = if empty then [] else [(json.key f, v)].
Proof. unfold json.member. now intros ->. Qed.

(** Which field a key selects is settled by evaluation. *)
Ltac find_fields :=
  repeat match goal with
  | |- context [json.find_field ?fields ?k] =>
    let i := eval vm_compute in (json.find_field fields k) in
    change (json.find_field fields k) with i
  end.

Lemma Metadata_round_trip (m old : Metadata_t) :
  utf8.ValidString (VirtualMachineId m) = true ->
  utf8.ValidString (VmOwnerId m) = true ->
  json.decode_struct "struct" set_Metadata Metadata_fields (Marshal_Metadata m) old
  = (m, None).
Proof.
  intros H1 H2. destruct m as [id owner]. unfold Marshal_Metadata, json.encode_string.
  cbn [VirtualMachineId VmOwnerId] in *.
  rewrite (coerce_ValidString _ H1), (coerce_ValidString _ H2).
  reflexivity.
Qed.

Lemma HostSystem_round_trip (h old : HostSystem_t) :
  utf8.ValidString (DistributionName h) = true ->
  json.in_range 64 (Bit h) = true ->
  json.decode_struct "struct" set_HostSystem HostSystem_fields (Marshal_HostSystem h) old
  = (h, None).
Proof.
  intros H1 H2. destruct h as [name bit]. unfold Marshal_HostSystem, json.encode_string.
  cbn [DistributionName Bit] in *.
  rewrite (coerce_ValidString _ H1), !member_kept by reflexivity.
  cbn -[json.in_range]. find_fields. cbn -[json.in_range]. rewrite H2. reflexivity.
Qed.

Lemma Resources_round_trip (r old : Resources_t) :
  json.in_range 32 (CpuNum r) = true ->
  json.in_range 64 (MemoryInMegabytes r) = true ->
  json.decode_struct "struct" set_Resources Resources_fields (Marshal_Resources r) old
  = (r, None).
Proof.
  intros H1 H2. destruct r as [cpu memory]. unfold Marshal_Resources.
  cbn [CpuNum MemoryInMegabytes] in *.
  rewrite !member_kept by reflexivity.
  cbn -[json.in_range]. find_fields. cbn -[json.in_range].
  rewrite H1. cbn -[json.in_range]. rewrite H2. reflexivity.
Qed.

Lemma Disk_round_trip (d old : Disk_t) :
  json.in_range 64 (CapacityInKB d) = true ->
  json.decode_struct "struct" set_Disk Disk_fields (Marshal_Disk d) old = (d, None).
Proof.
  intros H. destruct d as [capacity]. unfold Marshal_Disk.
  cbn [CapacityInKB] in *.
  rewrite !member_kept by reflexivity.
  cbn -[json.in_range]. find_fields. cbn -[json.in_range]. rewrite H. reflexivity.
Qed.

(** The fields tagged [omitempty] are left out when empty and then keep
    the value they had before the decoding, which is the zero value. *)
Lemma Network_round_trip (n : Network_t) :
  utf8.ValidString (IP n) = true ->
  utf8.ValidString (Netmask n) = true ->
  utf8.ValidString (Hostname n) = true ->
  utf8.ValidString (Gateway n) = true ->
  json.decode_struct "struct" set_Network Network_fields (Marshal_Network n) (Network zero)
  = (n, None).
Proof.
  intros H1 H2 H3 H4. destruct n as [ip mask host gw v6 v4].
  unfold Marshal_Network, json.encode_string.
  cbn [IP Netmask Hostname Gateway Enablev6 Enablev4] in *.
  rewrite (coerce_ValidString _ H1), (coerce_ValidString _ H2),
    (coerce_ValidString _ H3), (coerce_ValidString _ H4).
  clear. destruct ip, mask, host, gw, v6, v4; reflexivity.
Qed.

(** C8.  Decoding the encoding of a well-formed value gives the value
    back: [NewCustomConfig], applied to the document that encoding a
    [VirtualMachineCustomSpec] produces, returns a spec equal to the
    original in each of [Metadata], [HostSystem], [Network], [Resources]
    and [Disk], and no error. *)
Theorem NewCustomConfig_Marshal (c : VirtualMachineCustomSpec) :
  well_formed c -> NewCustomConfig (Some (Marshal c)) = (c, None).
Proof.
  intros (H1 & H2 & H3 & H4 & H5 & H6 & H7 & H8 & H9 & H10 & H11).
  destruct c as [m h n r d].
  cbn [Metadata HostSystem Network Resources Disk] in *.
  unfold NewCustomConfig, Unmarshal, Marshal.
  cbn [Metadata HostSystem Network Resources Disk].
  rewrite !member_kept by reflexivity.
  cbn [app json.decode_struct json.decode_members]. find_fields.
  cbn [set_VirtualMachineCustomSpec].
  rewrite (Metadata_round_trip m _ H1 H2).
  cbn [Metadata HostSystem Network Resources Disk json.saveError].
  rewrite (HostSystem_round_trip h _ H3 H4).
  cbn [Metadata HostSystem Network Resources Disk json.saveError].
  rewrite (Network_round_trip n H5 H6 H7 H8).
  cbn [Metadata HostSystem Network Resources Disk json.saveError].
  rewrite (Resources_round_trip r _ H9 H10).
  cbn [Metadata HostSystem Network Resources Disk json.saveError].
  rewrite (Disk_round_trip d _ H11).
  reflexivity.
Qed.

Lemma NewCustomConfig_Marshal_witness :
  well_formed scenario /\ NewCustomConfig (Some (Marshal scenario)) = (scenario, None).
Proof.
  assert (H : well_formed scenario) by (repeat split; reflexivity).
  split; [exact H | apply (NewCustomConfig_Marshal scenario H)].
Defined.

(** The encoder and the decoder agree on the key of [Bit], which the tag
    makes ["Bit;omitempty"]: a document that spells it ["Bit"] leaves the
    field at zero, without an error. *)
Lemma Bit_key : json.key f_Bit = "Bit;omitempty" /\ json.omitEmpty f_Bit = false.
Proof. split; reflexivity. Qed.

Lemma Bit_not_read_from_schema_key :
  NewCustomConfig
    (Some (json.JObject
             [("HostSystem",
               json.JObject [("DistributionName", json.JString "ubuntu");
                             ("Bit", json.JNumber 64)])]))
  = ({| Metadata := Metadata zero;
        HostSystem := {| DistributionName := "ubuntu"; Bit := 0 |};
        Network := Network zero; Resources := Resources zero; Disk := Disk zero |}, None).
Proof. reflexivity. Qed.

(** A byte that is not UTF-8 does not survive the encoding. *)
Lemma invalid_byte_is_replaced :
  utf8.coerce (String (ascii_of_nat 255) "") = utf8.RuneError.
Proof. reflexivity. Qed.

End SpecDecoder.

(** ** DatacenterResolver *)

Section DatacenterResolver.
Import parsers.

(** The error of the retrieval, and any error of a lookup that yielded an
    object, are folded into one message. *)
Lemma GetDatacenter_retrieval_error (this : DatacenterConfig) (Client : vim25.Client)
    (Datacenter : object.Reference) (FindError : option error) (RetrieveError : error) :
  vim25.FindByInventoryPath Client GetDatacenter_Context (ItemPath this)
    = (Some Datacenter, FindError) ->
  vim25.RetrieveProperties Client GetDatacenter_Context (object.Reference_ Datacenter)
    = Some RetrieveError ->
  GetDatacenter this Client
  = Returned (None, Some (errors_New "Datacenter Does Not Exist")).
Proof.
  intros Hfind Hretrieve. unfold GetDatacenter, property.RetrieveOne.
  fold GetDatacenter_Context. rewrite Hfind. cbn [object.Reference_of mbind outcome_bind].
  rewrite Hretrieve. cbn [mbind outcome_bind].
  now rewrite orb_true_r.
Qed.

(** C6, as amended.  When the lookup yields an object and the retrieval
    reports an error, [GetDatacenter] returns the one error "Datacenter
    Does Not Exist", whether the retrieval failed by absence, by timeout or
    in transport, and whatever error the lookup reported besides: the
    causes cannot be told apart and no error of the transport is
    returned. *)
Theorem GetDatacenter_single_failure (this : DatacenterConfig) (Client : vim25.Client)
    (Datacenter : object.Reference) (FindError : option error) (RetrieveError : error) :
  vim25.FindByInventoryPath Client GetDatacenter_Context (ItemPath this)
    = (Some Datacenter, FindError) ->
  vim25.RetrieveProperties Client GetDatacenter_Context (object.Reference_ Datacenter)
    = Some RetrieveError ->
  GetDatacenter this Client
  = Returned (None, Some (errors_New "Datacenter Does Not Exist")).
Proof. apply GetDatacenter_retrieval_error. Qed.

Lemma GetDatacenter_single_failure_witness :
  GetDatacenter DC0 (slow_retrieval (15 * time_Minute)%Z inventory)
  = Returned (None, Some (errors_New "Datacenter Does Not Exist"))
  /\ GetDatacenter DC0 (vanished inventory)
  = Returned (None, Some (errors_New "Datacenter Does Not Exist")).
Proof.
  split.
  - apply (GetDatacenter_single_failure DC0 (slow_retrieval (15 * time_Minute)%Z inventory)
             {| object.dynamic := "*object.Datacenter"; object.Reference_ := datacenter_2 |}
             None context_DeadlineExceeded); reflexivity.
  - apply (GetDatacenter_single_failure DC0 (vanished inventory)
             {| object.dynamic := "*object.Datacenter"; object.Reference_ := datacenter_2 |}
             None (errors_New "ServerFaultCode: The object has already been deleted or has not been completely created"));
      reflexivity.
Defined.

(** A retrieval that times out reads exactly as one that finds the object
    gone. *)
Lemma GetDatacenter_timeout_reads_as_absence :
  GetDatacenter DC0 (slow_retrieval (15 * time_Minute)%Z inventory)
  = GetDatacenter DC0 (vanished inventory).
Proof. reflexivity. Qed.

(** A path that resolves to nothing, and a lookup that times out, leave a
    [nil] object whose [Reference] is asked for before any error is
    looked at. *)
Lemma GetDatacenter_nil_object (this : DatacenterConfig) (Client : vim25.Client)
    (FindError : option error) :
  vim25.FindByInventoryPath Client GetDatacenter_Context (ItemPath this) = (None, FindError) ->
  GetDatacenter this Client
  = Panicked "runtime error: invalid memory address or nil pointer dereference".
Proof.
  intros Hfind. unfold GetDatacenter. fold GetDatacenter_Context. now rewrite Hfind.
Qed.

(** A retrieval that is answered does not come back either: the answer is
    loaded into a destination that is a pointer to a pointer. *)
Lemma GetDatacenter_answered (this : DatacenterConfig) (Client : vim25.Client)
    (Datacenter : object.Reference) (FindError : option error) :
  vim25.FindByInventoryPath Client GetDatacenter_Context (ItemPath this)
    = (Some Datacenter, FindError) ->
  vim25.RetrieveProperties Client GetDatacenter_Context (object.Reference_ Datacenter) = None ->
  GetDatacenter this Client = Panicked "unexpected type".
Proof.
  intros Hfind Hretrieve. unfold GetDatacenter, property.RetrieveOne.
  fold GetDatacenter_Context. rewrite Hfind. cbn [object.Reference_of mbind outcome_bind].
  now rewrite Hretrieve.
Qed.

End DatacenterResolver.

(** C6, as stated, fails: the error returned when the retrieval outlives
    its budget is the error returned when the datacenter is gone, with no
    timeout anywhere. *)
Lemma distinguishes_absence_from_timeout_counterexample :
  ~ distinguishes_absence_from_timeout.
Proof.
  intros (NotFoundError & TimeoutError & _ & Hclaim).
  destruct (Hclaim DC0 (slow_retrieval (15 * time_Minute)%Z inventory)) as (_ & Hlate & _).
  assert (H : exceeds_budget (slow_retrieval (15 * time_Minute)%Z inventory) DC0).
  { right. eexists. split; reflexivity. }
  specialize (Hlate H). injection Hlate as <-.
  destruct (Hclaim DC0 (vanished inventory)) as (_ & _ & Honly).
  destruct (Honly eq_refl) as [Hfind | (Datacenter & _ & Hretrieve)].
  - discriminate Hfind.
  - discriminate Hretrieve.
Qed.

(** ** StorageProvisioner *)

Section StorageProvisioner.
Import parsers.

Lemma Where_nil (Database : list models.VirtualMachine) (id owner : string) :
  (forall r, In r Database -> models.ID r = id -> models.OwnerId r <> owner) ->
  models.Where Database id owner = [].
Proof.
  intros Hnone. unfold models.Where.
  induction Database as [|r Database IH]; [reflexivity|].
  cbn [List.filter].
  destruct (String.eqb_spec (models.ID r) id) as [Hid|Hid];
    destruct (String.eqb_spec (models.OwnerId r) owner) as [Howner|Howner];
    cbn [andb]; try (apply IH; intros; apply Hnone; [right|]; assumption).
  exfalso. apply (Hnone r); [left; reflexivity | assumption | assumption].
Qed.

(** The outcome for a pair the store has no record for. *)
Lemma GetDiskStorageConfig_no_record Database this Client :
  models.Where Database (VirtualMachineId (Metadata this)) (VmOwnerId (Metadata this)) = [] ->
  GetDiskStorageConfig Database this Client
  = Returned (None, Some models.ErrRecordNotFound).
Proof.
  intros Hnone. unfold GetDiskStorageConfig, find_VirtualMachine, models.Find.
  now rewrite Hnone.
Qed.

(** The store enters the stage only through the rows the query selects. *)
Lemma GetDiskStorageConfig_selected_rows Database Database' this Client :
  models.Where Database (VirtualMachineId (Metadata this)) (VmOwnerId (Metadata this))
  = models.Where Database' (VirtualMachineId (Metadata this)) (VmOwnerId (Metadata this)) ->
  GetDiskStorageConfig Database this Client = GetDiskStorageConfig Database' this Client.
Proof.
  intros Hsame. unfold GetDiskStorageConfig, find_VirtualMachine, models.Find.
  now rewrite Hsame.
Qed.

(** C5.  For every pair of a machine and an owner, [GetDiskStorageConfig]
    returns the not-found error of the store both when no record has the
    machine's id and when records with that id exist but belong to other
    owners; the two results are the same value, which carries neither the
    id nor an owner. *)
Theorem GetDiskStorageConfig_NotFound_for_absent_and_foreign
    (absent foreign : list models.VirtualMachine)
    (this : VirtualMachineCustomSpec) (Client : vim25.Client) :
  (forall r, In r absent -> models.ID r <> VirtualMachineId (Metadata this)) ->
  (exists r, In r foreign /\ models.ID r = VirtualMachineId (Metadata this)) ->
  (forall r, In r foreign -> models.ID r = VirtualMachineId (Metadata this) ->
             models.OwnerId r <> VmOwnerId (Metadata this)) ->
  GetDiskStorageConfig absent this Client = Returned (None, Some models.ErrRecordNotFound)
  /\ GetDiskStorageConfig foreign this Client = Returned (None, Some models.ErrRecordNotFound)
  /\ GetDiskStorageConfig absent this Client = GetDiskStorageConfig foreign this Client.
Proof.
  intros Habsent _ Hforeign.
  assert (H1 : GetDiskStorageConfig absent this Client
               = Returned (None, Some models.ErrRecordNotFound)).
  { apply GetDiskStorageConfig_no_record, Where_nil.
    intros r Hin Hid. exfalso. exact (Habsent r Hin Hid). }
  assert (H2 : GetDiskStorageConfig foreign this Client
               = Returned (None, Some models.ErrRecordNotFound)).
  { apply GetDiskStorageConfig_no_record, Where_nil. exact Hforeign. }
  repeat split; [exact H1 | exact H2 | now rewrite H1, H2].
Qed.

Lemma GetDiskStorageConfig_NotFound_for_absent_and_foreign_witness :
  GetDiskStorageConfig [] scenario inventory
  = Returned (None, Some models.ErrRecordNotFound)
  /\ GetDiskStorageConfig [vm_1_of "owner-7"] scenario inventory
  = Returned (None, Some models.ErrRecordNotFound)
  /\ GetDiskStorageConfig [] scenario inventory
  = GetDiskStorageConfig [vm_1_of "owner-7"] scenario inventory.
Proof.
  apply (GetDiskStorageConfig_NotFound_for_absent_and_foreign
           [] [vm_1_of "owner-7"] scenario inventory).
  - intros r [].
  - exists (vm_1_of "owner-7"). split; [left|]; reflexivity.
  - intros r [<-|[]] _. discriminate.
Defined.

(** C7.  Whenever the machine's record is found, its live object resolves
    and no datastore is to be had from it, [GetDiskStorageConfig] does not
    return an error, it panics: in the assertion to [*mo.VirtualMachine]
    when that fails, and otherwise when it takes element 0 of the empty
    list, which it does without a look at the length. *)
Theorem GetDiskStorageConfig_no_datastore_panics
    (Database : list models.VirtualMachine) (this : VirtualMachineCustomSpec)
    (Client : vim25.Client) (Vm : models.VirtualMachine)
    (VirtualMachine : object.Reference) :
  models.Find Database (VirtualMachineId (Metadata this)) (VmOwnerId (Metadata this))
    = (Vm, None) ->
  vim25.FindByInventoryPath Client GetDiskStorageConfig_Context (models.ItemPath Vm)
    = (Some VirtualMachine, None) ->
  object.dynamic VirtualMachine = "*object.VirtualMachine" ->
  (forall MoVirtualMachine,
     vim25.NewReference_mo Client (object.Reference_ VirtualMachine) = Some MoVirtualMachine ->
     mo.Datastore MoVirtualMachine = []) ->
  panicked (GetDiskStorageConfig Database this Client) = true
  /\ (is_Some (vim25.NewReference_mo Client (object.Reference_ VirtualMachine)) ->
      GetDiskStorageConfig Database this Client
      = Panicked "runtime error: index out of range [0] with length 0").
Proof.
  intros Hrecord Hfind Hdynamic Hempty.
  unfold GetDiskStorageConfig, find_VirtualMachine.
  fold GetDiskStorageConfig_Context. rewrite Hrecord, Hfind.
  unfold object.assert_VirtualMachine. rewrite Hdynamic.
  change ("*object.VirtualMachine" =? "*object.VirtualMachine") with true.
  cbn [mbind outcome_bind object.Reference_of].
  destruct (vim25.NewReference_mo Client (object.Reference_ VirtualMachine))
    as [MoVirtualMachine|].
  - cbn [mbind outcome_bind]. rewrite (Hempty MoVirtualMachine eq_refl). now split.
  - split; [reflexivity|]. intros [m Hm]. discriminate Hm.
Qed.

Lemma GetDiskStorageConfig_no_datastore_panics_witness :
  panicked (GetDiskStorageConfig [vm_1_of "owner-9"] scenario inventory) = true.
Proof.
  apply (GetDiskStorageConfig_no_datastore_panics
           [vm_1_of "owner-9"] scenario inventory (vm_1_of "owner-9")
           {| object.dynamic := "*object.VirtualMachine"; object.Reference_ := vm_42 |}).
  - reflexivity.
  - reflexivity.
  - reflexivity.
  - intros MoVirtualMachine H. discriminate H.
Defined.

End StorageProvisioner.

(** ** The budgets of the remote-bound stages *)

Section Timeouts.
Import parsers.

(** C9.  The stages do not share one budget: the datacenter lookup is
    given ten minutes, the lookup of the virtual machine, the host system
    setup and the private network setup one minute each.  A control plane
    that answers after five minutes is in time for the first and too late
    for the second. *)
Theorem timeout_budgets_differ :
  GetDatacenter_Timeout = (600 * time_Second)%Z
  /\ GetDiskStorageConfig_Timeout = (60 * time_Second)%Z
  /\ host_system.SetupHostSystem_Timeout = (60 * time_Second)%Z
  /\ network.SetupPrivateNetwork_Timeout = (60 * time_Second)%Z
  /\ (GetDiskStorageConfig_Timeout < GetDatacenter_Timeout)%Z
  /\ vim25.FindByInventoryPath
       (slow_lookup (5 * time_Minute)%Z inventory)
       GetDatacenter_Context "/DC0/vm/vm-1"
     = (Some {| object.dynamic := "*object.VirtualMachine"; object.Reference_ := vm_42 |}, None)
  /\ vim25.FindByInventoryPath
       (slow_lookup (5 * time_Minute)%Z inventory)
       GetDiskStorageConfig_Context "/DC0/vm/vm-1"
     = (None, Some context_DeadlineExceeded).
Proof. repeat split. Qed.

End Timeouts.

(** * Further properties of the code *)

(** ** package host_system *)

Section HostSystem.
Import host_system.

(** X2.  [GetHostSystemLocalPath] never gives a path other than the empty
    one; its error is [nil] exactly for the names ["ubuntu"] and
    ["windows"], in that spelling, and so, for the name stored by
    [NewHostSystemCredentials], exactly when [strings.ToLower] maps the
    given name to one of the two. *)
Theorem GetHostSystemLocalPath_accepts (U : unicode) (Name : string) (Bit : Z) :
  (GetHostSystemLocalPath Name).1 = ""
  /\ ((GetHostSystemLocalPath Name).2 = None <-> Name = "ubuntu" \/ Name = "windows")
  /\ ((GetHostSystemLocalPath (SystemName (NewHostSystemCredentials U Name Bit))).2 = None
      <-> strings_ToLower U Name = "ubuntu" \/ strings_ToLower U Name = "windows").
Proof.
  assert (H : forall n, (GetHostSystemLocalPath n).1 = ""
                        /\ ((GetHostSystemLocalPath n).2 = None <-> n = "ubuntu" \/ n = "windows")).
  { intros n. unfold GetHostSystemLocalPath.
    destruct (String.eqb_spec n "ubuntu") as [->|Hu]; [cbn; intuition|].
    destruct (String.eqb_spec n "windows") as [->|Hw]; cbn; [intuition|].
    split; [reflexivity|]. split; [discriminate | intros [?|?]; contradiction]. }
  split; [apply H|]. split; [apply H|]. apply (H (strings_ToLower U Name)).
Qed.

(** X4.  [SetupHostSystem] fails for every host system, the two that have a
    local path included: its result is the error "Invalid Operational
    System Name" whatever the credentials, and it does not depend on what
    the control plane would answer. *)
Theorem SetupHostSystem_always_fails (U : unicode)
    (Device : Context -> option error) (Credentials : HostSystemCredentials) :
  SetupHostSystem U Device Credentials
  = (None, Some (errors_New "Invalid Operational System Name")).
Proof. reflexivity. Qed.

End HostSystem.

(** ** package network *)

Section Network.
Import network.

Lemma upper_byte_not_lower (c : ascii) : is_lower (upper_byte c) = false.
Proof. destruct c as [[] [] [] [] [] [] [] []]; reflexivity. Qed.

Lemma strings_ToTitle_no_lower (s : string) :
  json.all_bytes (fun c => negb (is_lower c)) (strings_ToTitle s) = true.
Proof.
  unfold strings_ToTitle. induction s as [|c s IH]; cbn [map_bytes json.all_bytes];
    [reflexivity|].
  now rewrite upper_byte_not_lower, IH.
Qed.

(** No title-cased string is a key of the generator table. *)
Lemma title_is_no_key (s : string) :
  slices_Contains (maps_Keys FieldValueGenerators) (strings_ToTitle s) = false.
Proof.
  pose proof (strings_ToTitle_no_lower s) as Hupper.
  change (maps_Keys FieldValueGenerators) with ["Gateway"; "Netmask"; "Hostname"].
  unfold slices_Contains. cbn [existsb].
  repeat match goal with
  | |- context [String.eqb (strings_ToTitle s) ?k] =>
    destruct (String.eqb_spec (strings_ToTitle s) k) as [Heq|_];
      [rewrite Heq in Hupper; discriminate Hupper|]
  end.
  reflexivity.
Qed.

Lemma generate_field_keeps (this : VirtualMachineIPAddress) (Field : string) :
  generate_field this Field = Returned this.
Proof. unfold generate_field. now rewrite title_is_no_key. Qed.

(** X5.  The generation loop generates nothing: whatever names
    [InvalidValues] holds, no generator is called and the descriptor is
    left as it was, because the table is asked for the title-cased name
    and every key of the table has lower-case letters. *)
Theorem generation_loop_generates_nothing
    (InvalidValues : list string) (this : VirtualMachineIPAddress) :
  for_each generate_field InvalidValues this = Returned this.
Proof.
  induction InvalidValues as [|Field InvalidValues IH]; [reflexivity|].
  cbn [for_each]. rewrite generate_field_keeps. exact IH.
Qed.

(** Each round of the validation loop panics on its own, whatever the
    index, the patterns and the pattern matcher: the field is asked of the
    type of the pointer, not of the struct. *)
Lemma validation_round_panics (U : unicode)
    (regexp_MatchString : string -> string -> bool * option error)
    (this : VirtualMachineIPAddress) (Patterns : gmap string string)
    (InvalidValues : list string) (Index : nat) :
  validate_field U regexp_MatchString this Patterns InvalidValues Index
  = Panicked "reflect: Field of non-struct type *network.VirtualMachineIPAddress".
Proof. reflexivity. Qed.

(** X6.  [GetNetworkConfig] panics for every configuration and client: the
    four network fields of the spec are handed to [SetupPublicNetwork],
    whose validation does not return. *)
Theorem GetNetworkConfig_panics (U : unicode)
    (regexp_MatchString : string -> string -> bool * option error)
    (this : parsers.VirtualMachineCustomSpec) (Client : vim25.Client) :
  parsers.GetNetworkConfig U regexp_MatchString this Client = Panicked NumField_panic.
Proof.
  unfold parsers.GetNetworkConfig. now rewrite SetupPublicNetwork_NumField.
Qed.

End Network.

(** ** package parsers: the remote-bound stages *)

Section Stages.
Import parsers.

(** X7.  Whenever the lookup yields no object — the path resolves to
    nothing, or the call fails or runs out of time — [GetDatacenter] does
    not return the error: it panics, because the object's reference is
    taken before the error is looked at. *)
Theorem GetDatacenter_without_object_panics
    (this : DatacenterConfig) (Client : vim25.Client) (FindError : option error) :
  vim25.FindByInventoryPath Client GetDatacenter_Context (ItemPath this) = (None, FindError) ->
  GetDatacenter this Client
  = Panicked "runtime error: invalid memory address or nil pointer dereference".
Proof. apply GetDatacenter_nil_object. Qed.

Lemma GetDatacenter_without_object_panics_witness :
  GetDatacenter nowhere inventory
  = Panicked "runtime error: invalid memory address or nil pointer dereference"
  /\ GetDatacenter DC0 (slow_lookup (15 * time_Minute)%Z inventory)
  = Panicked "runtime error: invalid memory address or nil pointer dereference".
Proof.
  split.
  - apply (GetDatacenter_without_object_panics nowhere inventory None). reflexivity.
  - apply (GetDatacenter_without_object_panics DC0
             (slow_lookup (15 * time_Minute)%Z inventory)
             (Some context_DeadlineExceeded)). reflexivity.
Defined.

(** X20.  [GetDatacenter] returns a datacenter for no configuration and no
    client.  It either panics or returns the error "Datacenter Does Not
    Exist": a lookup without an object panics when the object's reference
    is taken, an answered retrieval panics when the answer is loaded into
    [&MoDatacenter], and a retrieval with an error gives the error. *)
Theorem GetDatacenter_returns_no_datacenter
    (this : DatacenterConfig) (Client : vim25.Client) :
  returned_value (GetDatacenter this Client) = None
  /\ (GetDatacenter this Client
      = Panicked "runtime error: invalid memory address or nil pointer dereference"
      \/ GetDatacenter this Client = Panicked "unexpected type"
      \/ GetDatacenter this Client
         = Returned (None, Some (errors_New "Datacenter Does Not Exist"))).
Proof.
  destruct (vim25.FindByInventoryPath Client GetDatacenter_Context (ItemPath this))
    as [[Datacenter|] FindError] eqn:Hfind.
  - destruct (vim25.RetrieveProperties Client GetDatacenter_Context
                (object.Reference_ Datacenter)) as [RetrieveError|] eqn:Hretrieve.
    + rewrite (GetDatacenter_retrieval_error _ _ _ _ _ Hfind Hretrieve). auto.
    + rewrite (GetDatacenter_answered _ _ _ _ Hfind Hretrieve). auto.
  - rewrite (GetDatacenter_nil_object _ _ _ Hfind). auto.
Qed.

(** X9.  When the record is found but the lookup of its live object yields
    nothing, or an object that is not a virtual machine, the stage panics
    in the type assertion; an error the lookup reported, a timeout
    included, is lost with it. *)
Theorem GetDiskStorageConfig_without_VirtualMachine_panics
    (Database : list models.VirtualMachine) (this : VirtualMachineCustomSpec)
    (Client : vim25.Client) (Vm : models.VirtualMachine)
    (found : option object.Reference) (FindError : option error) :
  models.Find Database (VirtualMachineId (Metadata this)) (VmOwnerId (Metadata this))
    = (Vm, None) ->
  vim25.FindByInventoryPath Client GetDiskStorageConfig_Context (models.ItemPath Vm)
    = (found, FindError) ->
  (forall r, found = Some r -> object.dynamic r <> "*object.VirtualMachine") ->
  panicked (GetDiskStorageConfig Database this Client) = true.
Proof.
  intros Hrecord Hfind Hother.
  unfold GetDiskStorageConfig, find_VirtualMachine.
  fold GetDiskStorageConfig_Context. rewrite Hrecord, Hfind.
  destruct found as [r|]; [|reflexivity].
  unfold object.assert_VirtualMachine.
  destruct (String.eqb_spec (object.dynamic r) "*object.VirtualMachine") as [Heq|_];
    [|reflexivity].
  exfalso. exact (Hother r eq_refl Heq).
Qed.

Lemma GetDiskStorageConfig_without_VirtualMachine_panics_witness :
  panicked (GetDiskStorageConfig [vm_1_of "owner-9"] scenario
              (slow_lookup (5 * time_Minute)%Z inventory)) = true.
Proof.
  apply (GetDiskStorageConfig_without_VirtualMachine_panics
           [vm_1_of "owner-9"] scenario
           (slow_lookup (5 * time_Minute)%Z inventory)
           (vm_1_of "owner-9") None (Some context_DeadlineExceeded)).
  - reflexivity.
  - reflexivity.
  - intros r Hr. discriminate Hr.
Defined.

(** X10.  For a machine and owner the query selects no row for, the stage
    ends before it turns to the control plane: its outcome is the same for
    every client. *)
Theorem GetDiskStorageConfig_unknown_record_makes_no_call
    (Database : list models.VirtualMachine) (this : VirtualMachineCustomSpec)
    (Client Client' : vim25.Client) :
  models.Where Database (VirtualMachineId (Metadata this)) (VmOwnerId (Metadata this)) = [] ->
  GetDiskStorageConfig Database this Client = GetDiskStorageConfig Database this Client'.
Proof.
  intros Hnone. now rewrite !(GetDiskStorageConfig_no_record _ _ _ Hnone).
Qed.

Lemma GetDiskStorageConfig_unknown_record_makes_no_call_witness :
  GetDiskStorageConfig [vm_1_of "owner-7"] scenario inventory
  = GetDiskStorageConfig [vm_1_of "owner-7"] scenario
      (slow_lookup (5 * time_Minute)%Z inventory).
Proof.
  apply (GetDiskStorageConfig_unknown_record_makes_no_call
           [vm_1_of "owner-7"] scenario). reflexivity.
Defined.

(** X11.  Rows of other machines and of other owners do not change the
    outcome of the stage, wherever they stand in the store. *)
Theorem GetDiskStorageConfig_ignores_other_rows
    (Database others : list models.VirtualMachine) (this : VirtualMachineCustomSpec)
    (Client : vim25.Client) :
  (forall r, In r others ->
             models.ID r = VirtualMachineId (Metadata this) ->
             models.OwnerId r <> VmOwnerId (Metadata this)) ->
  GetDiskStorageConfig (Database ++ others) this Client
    = GetDiskStorageConfig Database this Client
  /\ GetDiskStorageConfig (others ++ Database) this Client
    = GetDiskStorageConfig Database this Client.
Proof.
  intros Hothers. apply Where_nil in Hothers.
  split; apply GetDiskStorageConfig_selected_rows; unfold models.Where in *;
    rewrite List.filter_app, Hothers; [apply app_nil_r | reflexivity].
Qed.

Lemma GetDiskStorageConfig_ignores_other_rows_witness :
  GetDiskStorageConfig ([vm_1_of "owner-9"] ++ [vm_1_of "owner-7"]) scenario
    inventory
  = GetDiskStorageConfig [vm_1_of "owner-9"] scenario inventory
  /\ GetDiskStorageConfig ([vm_1_of "owner-7"] ++ [vm_1_of "owner-9"]) scenario
    inventory
  = GetDiskStorageConfig [vm_1_of "owner-9"] scenario inventory.
Proof.
  apply (GetDiskStorageConfig_ignores_other_rows
           [vm_1_of "owner-9"] [vm_1_of "owner-7"] scenario inventory).
  intros r [<-|[]] _. discriminate.
Defined.

End Stages.

(** ** package parsers: the decoders *)

Section Decoders.
Import parsers.

(** X12.  For a text that is not JSON and for a document that is not an
    object, [NewCustomConfig] hands back the zero-valued spec; the error
    that comes with it is [nil] only for [null], which is accepted as it
    stands. *)
Theorem NewCustomConfig_without_object (Config : option json.value) :
  (forall members, Config <> Some (json.JObject members)) ->
  (NewCustomConfig Config).1 = zero
  /\ ((NewCustomConfig Config).2 = None <-> Config = Some json.JNull).
Proof.
  intros Hkind. destruct Config as [[]|]; cbn;
    try (split; [reflexivity | split; [discriminate | discriminate]]).
  - split; [reflexivity | split; reflexivity].
  - exfalso. exact (Hkind _ eq_refl).
Qed.

Lemma NewCustomConfig_without_object_witness :
  (NewCustomConfig (Some json.JNull)).1 = zero
  /\ ((NewCustomConfig (Some json.JNull)).2 = None <-> Some json.JNull = Some json.JNull).
Proof.
  apply (NewCustomConfig_without_object (Some json.JNull)). intros members H. discriminate H.
Defined.

Lemma decode_members_known {T} (set : nat -> json.value -> T -> T * option error)
    (fields : list json.field) (members : list (string * json.value))
    (t : T) (saved : option error) :
  json.decode_members set fields (List.filter (known_member fields) members) t saved
  = json.decode_members set fields members t saved.
Proof.
  revert t saved. induction members as [|[k v] members IH]; intros t saved; [reflexivity|].
  cbn [List.filter]. unfold known_member at 1. cbn [fst].
  destruct (json.find_field fields k) as [i|] eqn:Hfield.
  - rewrite bool_decide_eq_true_2 by eauto.
    cbn [json.decode_members]. rewrite Hfield.
    destruct (set i v t) as [t' e]. apply IH.
  - rewrite bool_decide_eq_false_2 by (intros [i Hi]; discriminate Hi).
    cbn [json.decode_members]. rewrite Hfield. apply IH.
Qed.

(** X13.  [NewCustomConfig] passes over the members of the document whose
    key selects none of the five sections, such as the [Datacenter]
    section of the other configuration: leaving them out of the document
    changes neither the spec nor the error. *)
Theorem NewCustomConfig_skips_unknown_members (members : list (string * json.value)) :
  NewCustomConfig (Some (json.JObject members))
  = NewCustomConfig
      (Some (json.JObject (List.filter (known_member VirtualMachineCustomSpec_fields) members))).
Proof.
  unfold NewCustomConfig, Unmarshal, json.decode_struct.
  now rewrite decode_members_known.
Qed.

(** A key without the letters [k] and [s] is matched under case folding by
    its spellings in ASCII only. *)
Lemma equalFold_ascii (name member : string) :
  json.all_bytes
    (fun c => negb (Ascii.eqb (lower_byte c) "k" || Ascii.eqb (lower_byte c) "s")) name = true ->
  json.equalFold name member = true ->
  ascii_ToLower member = ascii_ToLower name.
Proof.
  revert member. induction name as [|c name IH]; intros member Hplain Hfold.
  - cbn [json.equalFold] in Hfold. apply String.eqb_eq in Hfold. now subst.
  - destruct member as [|d member]; [discriminate Hfold|].
    cbn [json.all_bytes] in Hplain. apply andb_true_iff in Hplain as [Hc Hplain].
    apply negb_true_iff, orb_false_iff in Hc as [Hk Hs].
    cbn [json.equalFold] in Hfold. rewrite Hk, Hs in Hfold.
    destruct (Ascii.eqb_spec (lower_byte c) (lower_byte d)) as [Heq|_];
      [|discriminate Hfold].
    unfold ascii_ToLower. cbn [map_bytes]. rewrite Heq. f_equal. now apply IH.
Qed.

(** The key that makes the decoder store into [Bit]. *)
Lemma find_Bit (k : string) :
  json.find_field HostSystem_fields k = Some 1 -> ascii_ToLower k = "bit;omitempty".
Proof.
  unfold json.find_field, HostSystem_fields. cbn [json.position].
  change (json.key f_DistributionName) with "DistributionName".
  change (json.key f_Bit) with "Bit;omitempty".
  destruct (String.eqb_spec "DistributionName" k) as [|_]; [discriminate|].
  destruct (String.eqb_spec "Bit;omitempty" k) as [<-|_]; [reflexivity|].
  cbn [fmap option_fmap option_map].
  destruct (json.equalFold "DistributionName" k); [discriminate|].
  destruct (json.equalFold "Bit;omitempty" k) eqn:Hfold; [|discriminate].
  intros _. now apply equalFold_ascii in Hfold.
Qed.

Lemma HostSystem_members_keep_Bit (members : list (string * json.value))
    (h : HostSystem_t) (saved : option error) :
  (forall k v, In (k, v) members -> ascii_ToLower k <> "bit;omitempty") ->
  Bit (json.decode_members set_HostSystem HostSystem_fields members h saved).1 = Bit h.
Proof.
  revert h saved. induction members as [|[k v] members IH]; intros h saved Hkeys;
    [reflexivity|].
  cbn [json.decode_members].
  assert (Hrest : forall k v, In (k, v) members -> ascii_ToLower k <> "bit;omitempty")
    by (intros k' v' Hin; apply (Hkeys k' v'); now right).
  destruct (json.find_field HostSystem_fields k) as [[|[|i]]|] eqn:Hfield.
  - cbn [set_HostSystem]. destruct (json.decode_string v (DistributionName h)) as [s e].
    now rewrite IH.
  - exfalso. apply (Hkeys k v); [now left | now apply find_Bit].
  - cbn [set_HostSystem]. now rewrite IH.
  - now rewrite IH.
Qed.

Lemma section_keeps_Bit (i : nat) (v : json.value) (c : VirtualMachineCustomSpec) :
  (forall members k' v', v = json.JObject members -> In (k', v') members ->
                         ascii_ToLower k' <> "bit;omitempty") ->
  Bit (HostSystem (set_VirtualMachineCustomSpec i v c).1) = Bit (HostSystem c).
Proof.
  intros Hkeys. destruct i as [|[|[|[|[|i]]]]]; cbn [set_VirtualMachineCustomSpec];
    try match goal with
    | |- context [json.decode_struct ?ty ?set ?fields v ?old] =>
      destruct (json.decode_struct ty set fields v old) as [x e] eqn:Hdecode
    end; try reflexivity.
  assert (Hx : x = (json.decode_struct "struct" set_HostSystem HostSystem_fields v
                      (HostSystem c)).1) by now rewrite Hdecode.
  cbn [fst HostSystem]. rewrite Hx. clear Hx Hdecode.
  destruct v; try reflexivity. cbn [json.decode_struct].
  apply HostSystem_members_keep_Bit. intros k' v' Hin. exact (Hkeys _ k' v' eq_refl Hin).
Qed.

Lemma document_keeps_Bit (top : list (string * json.value))
    (c : VirtualMachineCustomSpec) (saved : option error) :
  (forall k members k' v', In (k, json.JObject members) top -> In (k', v') members ->
                           ascii_ToLower k' <> "bit;omitempty") ->
  Bit (HostSystem (json.decode_members set_VirtualMachineCustomSpec
                     VirtualMachineCustomSpec_fields top c saved).1)
  = Bit (HostSystem c).
Proof.
  revert c saved. induction top as [|[k v] top IH]; intros c saved Hkeys; [reflexivity|].
  cbn [json.decode_members].
  assert (Hrest : forall k members k' v', In (k, json.JObject members) top ->
                    In (k', v') members -> ascii_ToLower k' <> "bit;omitempty")
    by (intros k0 ms k' v' Hin; apply (Hkeys k0 ms k' v'); now right).
  destruct (json.find_field VirtualMachineCustomSpec_fields k) as [i|]; [|now apply IH].
  destruct (set_VirtualMachineCustomSpec i v c) as [c' e] eqn:Hset.
  rewrite IH by exact Hrest.
  change c' with (c', e).1. rewrite <- Hset. apply section_keeps_Bit.
  intros members k' v' -> Hin. apply (Hkeys k members k' v'); [now left | exact Hin].
Qed.

(** X14.  The word size is read only from a member spelt, up to case, as
    the tag of the field has it, ["Bit;omitempty"]: for any other
    document, one that gives it under ["Bit"] included, [Bit] is left at
    zero. *)
Theorem NewCustomConfig_Bit_needs_its_tag (document : json.value) :
  ~ spells_Bit_tag document ->
  Bit (HostSystem (NewCustomConfig (Some document)).1) = 0%Z.
Proof.
  intros Hnone. destruct document as [| | | | | |top]; try reflexivity.
  assert (Hconfig : (NewCustomConfig (Some (json.JObject top))).1
                    = (json.decode_members set_VirtualMachineCustomSpec
                         VirtualMachineCustomSpec_fields top zero None).1).
  { unfold NewCustomConfig, Unmarshal. cbn [json.decode_struct].
    now destruct (json.decode_members _ _ top zero None). }
  rewrite Hconfig, document_keeps_Bit; [reflexivity|].
  intros k members k' v' Hin Hin' Hkey. apply Hnone.
  exists top, k, members, k', v'. repeat split; assumption.
Qed.

Lemma NewCustomConfig_Bit_needs_its_tag_witness :
  Bit (HostSystem (NewCustomConfig
         (Some (json.JObject
                  [("HostSystem",
                    json.JObject [("DistributionName", json.JString "ubuntu");
                                  ("Bit", json.JNumber 64)])]))).1) = 0%Z.
Proof.
  apply NewCustomConfig_Bit_needs_its_tag.
  intros (top & k & members & k' & v & Hdoc & Hin & Hin' & Hkey).
  injection Hdoc as <-. destruct Hin as [Hin|[]]. injection Hin as <- <-.
  destruct Hin' as [Hin'|[Hin'|[]]]; injection Hin' as <- <-; discriminate Hkey.
Defined.

(** X15.  Decoding the encoding of a datacenter configuration gives it
    back, the [nil] configuration included, when the path is valid
    UTF-8. *)
Theorem NewHardwareConfig_Marshal (config : option DatacenterConfig) :
  (forall c, config = Some c -> utf8.ValidString (ItemPath c) = true) ->
  NewHardwareConfig (Some (Marshal_DatacenterConfig config)) = (config, None).
Proof.
  intros Hvalid. destruct config as [[p]|]; [|reflexivity].
  specialize (Hvalid _ eq_refl). cbn [ItemPath] in Hvalid.
  unfold Marshal_DatacenterConfig, json.encode_string. cbn [ItemPath].
  rewrite (coerce_ValidString _ Hvalid). clear Hvalid.
  destruct p; reflexivity.
Qed.

Lemma NewHardwareConfig_Marshal_witness :
  NewHardwareConfig (Some (Marshal_DatacenterConfig (Some DC0))) = (Some DC0, None).
Proof.
  apply (NewHardwareConfig_Marshal (Some DC0)). intros c Hc. injection Hc as <-. reflexivity.
Defined.

(** X16.  [NewHardwareConfig] gives a [nil] configuration exactly for a
    text that is not JSON and for [null]; for [null] the error is [nil] as
    well, and calling [GetDatacenter] on what was returned panics, for
    every client. *)
Theorem NewHardwareConfig_nil (Config : option json.value) (Client : vim25.Client) :
  ((NewHardwareConfig Config).1 = None <-> Config = None \/ Config = Some json.JNull)
  /\ NewHardwareConfig (Some json.JNull) = (None, None)
  /\ GetDatacenter_method (NewHardwareConfig (Some json.JNull)).1 Client
     = Panicked "runtime error: invalid memory address or nil pointer dereference".
Proof.
  split; [|split; reflexivity].
  destruct Config as [document|]; [|cbn; intuition].
  destruct document; cbn -[json.decode_struct];
    try (destruct (json.decode_struct _ _ _ _ _) as [c e]; cbn;
         split; [discriminate | intros [H|H]; discriminate H]).
  split; [now right | reflexivity].
Qed.

End Decoders.

(** ** package main: the routing table *)

Section Routes.
Import main.

(** A property of every route is settled by going through the table. *)
Ltac each_route r Hin :=
  intros r Hin;
  let table := eval vm_compute in routes in
  let Htable := fresh "Htable" in
  assert (Htable : routes = table) by (vm_compute; reflexivity);
  rewrite Htable in Hin; clear Htable; cbn [In] in Hin;
  repeat (destruct Hin as [<-|Hin]); [..|destruct Hin];
  cbn [gin.method gin.route_path gin.chain].

(** X17.  Setting up the routes does not panic, no method and path being
    registered twice; it registers twenty-one routes, and every one of them
    directly under the root: no path starts with the path of one of the
    groups [Run] opens. *)
Theorem routes_are_registered_at_the_root :
  panicked Run_routes = false
  /\ length routes = 21
  /\ Forall (fun r =>
               Forall (fun group => String.prefix group (gin.route_path r) = false)
                      group_prefixes)
            routes.
Proof.
  split; [reflexivity|]. split; [reflexivity|].
  apply List.Forall_forall. each_route r Hin; repeat constructor.
Qed.

(** X18.  [JwtAuthenticationMiddleware] runs for two routes only, the ones
    registered after it is put in use on the router: [POST /datacenter/]
    and [POST /feedback/]. *)
Theorem Jwt_guards_two_routes :
  Forall (fun r =>
            In JwtAuthenticationMiddleware (gin.chain r)
            <-> In (gin.route_path r) ["/datacenter/"; "/feedback/"])
         routes.
Proof.
  apply List.Forall_forall.
  each_route r Hin; rewrite <- !slices_Contains_In; vm_compute; tauto.
Qed.

(** X19.  The routes for the customer's account and for the life cycle of a
    virtual machine run neither middleware of the application: a request
    for one of them goes from the logger, the recovery and the CORS
    handler straight to its controller, the middleware given to the
    group ["/vm/"] notwithstanding. *)
Theorem account_and_lifecycle_routes_are_unguarded :
  Forall (fun request =>
            exists controller,
              served request.1 request.2
              = Some ["gin.Logger"; "gin.Recovery"; "cors.New"; controller]
              /\ controller <> JwtAuthenticationMiddleware
              /\ controller <> IsVirtualMachineOwnerMiddleware)
         account_and_lifecycle_routes.
Proof.
  unfold account_and_lifecycle_routes.
  repeat (constructor; [eexists; split; [vm_compute; reflexivity | split; discriminate]|]).
  constructor.
Qed.

End Routes.
